(** * Pull-request review decision engine ([src/handlers/pull-reviewer.ts])

    A shallow embedding of the [PullReviewer] class: the precheck, the
    one-review-per-day throttle, the task linker, the ground-truth
    collector, the verdict parser and the decision that follows it.

    The class talks to external collaborators (the source-control client,
    the completion client, the repository analysers).  Their answers are the
    fields of a [world]; every request the class sends them is appended to a
    trace of [call]s, so that "no API side effect" and "called before" are
    statements about that trace.  A rejected promise and a [throw] are both
    the [Thrown] outcome of the computation that awaits them. *)

From Stdlib Require Import QArith ZArith String Ascii List Lia Lqa.
From stdpp Require Import gmap strings list.

Set Warnings "-register-all".
#[local] Open Scope string_scope.

(** ** JavaScript numbers

    A JavaScript number is a binary64 float.  The class only compares
    numbers, subtracts two time values and tests them for truthiness, so a
    number is modelled by the real value it denotes: [NaN], the two
    infinities, or a rational.  Every finite double is a rational and [<] on
    doubles is [<] on the values they denote. *)

Inductive number : Type :=
| NaN
| NegInf
| Fin (q : Q)
| PosInf.

Definition Qltb (x y : Q) : bool :=
  (Qnum x * Zpos (Qden y) <? Qnum y * Zpos (Qden x))%Z.

Definition Qzerob (x : Q) : bool := (Qnum x =? 0)%Z.

Module Num.

(** [a < b] *)
Definition lt (a b : number) : bool :=
  match a, b with
  | NaN, _ | _, NaN => false
  | NegInf, NegInf => false
  | NegInf, _ => true
  | _, NegInf => false
  | PosInf, _ => false
  | Fin _, PosInf => true
  | Fin x, Fin y => Qltb x y
  end.

(** [a > b] *)
Definition gt (a b : number) : bool := lt b a.

(** [a - b].  The two operands of the only subtraction in the class are
    time values, integers of magnitude at most 8.64e15; their exact
    difference and its binary64 rounding fall on the same side of the
    24-hour constant it is compared with. *)
Definition sub (a b : number) : number :=
  match a, b with
  | NaN, _ | _, NaN => NaN
  | PosInf, PosInf | NegInf, NegInf => NaN
  | PosInf, _ | _, NegInf => PosInf
  | NegInf, _ | _, PosInf => NegInf
  | Fin x, Fin y => Fin (x - y)
  end.

(** [isNaN(a)] on a number *)
Definition isNaN (a : number) : bool :=
  match a with NaN => true | _ => false end.

(** [!a]: a number is falsy when it is 0 or NaN *)
Definition falsy (a : number) : bool :=
  match a with
  | NaN => true
  | Fin q => Qzerob q
  | _ => false
  end.

Definition of_Z (z : Z) : number := Fin (inject_Z z).

End Num.

(** ** Values produced by the loose JSON parser *)

Inductive jsval : Type :=
| JUndefined
| JNull
| JBool (b : bool)
| JNum (n : number)
| JStr (s : string)
| JArr (l : list jsval)
| JObj (props : gmap string jsval).

(** [typeof v] *)
Definition typeof (v : jsval) : string :=
  match v with
  | JUndefined => "undefined"
  | JNull | JArr _ | JObj _ => "object"
  | JBool _ => "boolean"
  | JNum _ => "number"
  | JStr _ => "string"
  end.

(** ** Errors and outcomes *)

(** What can be thrown: [new Error(msg)], a [TypeError] of the runtime, the
    log record that [logger.error(msg, meta)] returns (with the error it
    wraps, when [meta] carries one), and the rejection of a collaborator's
    promise. *)
Inductive error : Type :=
| Error (msg : string)
| TypeError (msg : string)
| LogReturn (msg : string) (cause : option error)
| Rejection (msg : string).

Inductive outcome (A : Type) : Type :=
| Returned (a : A)
| Thrown (e : error).
Arguments Returned {A} a.
Arguments Thrown {A} e.

(** The answer of a collaborator: its promise resolves or rejects. *)
Inductive response (A : Type) : Type :=
| Resolved (a : A)
| Rejected (e : error).
Arguments Resolved {A} a.
Arguments Rejected {A} e.

(** [logger.error(msg)] and [logger.error(msg, { e })] *)
Definition logger_error (msg : string) : error := LogReturn msg None.
Definition logger_error_with (msg : string) (e : error) : error :=
  LogReturn msg (Some e).

(** Modelled from the spec: the logger of [src/helpers/errors], which is not
    among the sources.  [logger.info(msg).logMessage.raw] is the message
    itself; the short-circuit reasons of the precheck are these messages. *)
Definition logger_info_raw (msg : string) : string := msg.

(** ** The webhook context *)

Inductive CodeReviewStatus : Type := APPROVE | REQUEST_CHANGES | COMMENT.

Record pull_request : Type := {
  draft : bool;
  state : string;
  pull_number : number;              (* pull_request.number *)
  node_id : string;
  body : option string;              (* null when the description is empty *)
  base_repo_owner_login : string;    (* pull_request.base.repo.owner.login *)
  base_repo_name : string            (* pull_request.base.repo.name *)
}.

Record payload : Type := {
  payload_pull_request : pull_request;
  payload_number : number;           (* payload.number *)
  repository_owner_login : string;   (* payload.repository.owner.login *)
  repository_name : string           (* payload.repository.name *)
}.

Record Context : Type := {
  ctx_payload : payload;
  UBIQUITY_OS_APP_NAME : string;     (* env *)
  anthropicAiModel : string          (* config *)
}.

(** Result handed back to the dispatch layer. *)
Record CallbackResult : Type := {
  status : Z;
  reason : string
}.

(** ** Data exchanged with the collaborators *)

(** An entry of [issues.listEvents]: [event], [actor.type], [created_at]. *)
Record timeline_event : Type := {
  event : string;
  actor_type : string;
  created_at : string
}.

(** [edge.node] of the closing-references query. *)
Record edge_node : Type := {
  node_number : number;
  node_title : string;
  node_url : string;
  node_body : string;
  node_name : string;
  node_owner : string
}.

Record ClosingIssueRef : Type := {
  ref_number : number;
  ref_title : string;
  ref_url : string;
  ref_body : string;
  ref_repository : string * string   (* { name, owner } *)
}.

Record ClosesIssues : Type := {
  closesIssues : bool;
  issues : list ClosingIssueRef
}.

Record issue : Type := {
  issue_body : option string
}.

Record RepoDependencies : Type := {
  dependencies : option (gmap string string);
  devDependencies : option (gmap string string)
}.

(** [{ answer, groundTruths, tokenUsage }] of [createCompletion] *)
Record CompletionsType : Type := {
  answer : string;
  completion_groundTruths : list string;
  tokenUsage : number * number * number
}.

Record PullReviewVerdict : Type := {
  confidenceThreshold : number;
  reviewComment : string
}.

(** ** Requests sent to the collaborators *)

Inductive call : Type :=
| issues_listEvents (owner repo : string) (issue_number : number)
| pulls_createReview (owner repo : string) (pull_number : number)
    (review_body : string) (review_event : CodeReviewStatus)
| graphql_convertPullRequestToDraft (pullRequestId : string)
| graphql_closedByPullRequestsReferences (owner repo : string)
    (pr_number : number)
| call_fetchIssue (issue_number : number)
| call_formatSpecAndPull (i : issue)
| call_fetchRepoLanguageStats
| call_fetchRepoDependencies
| call_findGroundTruths (taskSpecification : string)
| completions_createCompletion (model formatted : string)
    (groundTruths : list string) (appName : string) (maxTokens : number).

(** ** The collaborators' behaviour

    Every collaborator is asked at most once per invocation with a given
    request, so its behaviour is a function of the request.  [now] is the
    time value of [new Date()]. *)

Record world : Type := {
  now : Z;
  listEvents : string -> string -> number -> response (list timeline_event);
  createReview :
    string -> string -> number -> string -> CodeReviewStatus ->
    response string;
  convertPullRequestToDraft : string -> response unit;
  closedByPullRequestsReferences :
    string -> string -> number -> response (list edge_node);
  fetchIssue : number -> response (option issue);
  formatSpecAndPull : issue -> response string;
  fetchRepoLanguageStats : response (list (string * number));
  fetchRepoDependencies : response RepoDependencies;
  findGroundTruths : string -> response (list string);
  createCompletion :
    string -> string -> list string -> string -> number ->
    response CompletionsType;
  getModelMaxTokenLimit : string -> number
}.

(** ** The computation monad: a trace of requests and an outcome *)

Definition M (A : Type) : Type := list call -> outcome A * list call.

Definition ret {A} (a : A) : M A := fun tr => (Returned a, tr).

Definition throw {A} (e : error) : M A := fun tr => (Thrown e, tr).

Definition bind {A B} (m : M A) (k : A -> M B) : M B :=
  fun tr =>
    match m tr with
    | (Returned a, tr') => k a tr'
    | (Thrown e, tr') => (Thrown e, tr')
    end.

(** [try { m } catch (e) { h e }] *)
Definition try_catch {A} (m : M A) (h : error -> M A) : M A :=
  fun tr =>
    match m tr with
    | (Returned a, tr') => (Returned a, tr')
    | (Thrown e, tr') => h e tr'
    end.

(** [await collaborator(request)]: the request is recorded, then the promise
    settles. *)
Definition request {A} (c : call) (r : response A) : M A :=
  fun tr =>
    match r with
    | Resolved a => (Returned a, (tr ++ [c])%list)
    | Rejected e => (Thrown e, (tr ++ [c])%list)
    end.

(** A synchronous computation that may throw, run inside an [async] body. *)
Definition lift {A} (o : outcome A) : M A := fun tr => (o, tr).

Declare Scope js_scope.
Delimit Scope js_scope with js.
Notation "x <- m ;; k" := (bind m (fun x => k))
  (at level 100, m at next level, right associativity) : js_scope.
Notation "m ;;; k" := (bind m (fun _ => k))
  (at level 100, right associativity) : js_scope.

(** Running a method of the class from a fresh invocation. *)
Definition run {A} (m : M A) : outcome A * list call := m [].

(** ** String helpers of the runtime *)

Definition is_digit (c : ascii) : bool :=
  let n := nat_of_ascii c in (48 <=? n)%nat && (n <=? 57)%nat.

Definition is_hash (c : ascii) : bool := Ascii.eqb c "#"%char.

(** A finished candidate is a match when a digit followed its hash sign. *)
Definition flush (cur : option string) : list string :=
  match cur with
  | Some (String d ds) => [String "#"%char (String d ds)]
  | _ => []
  end.

(** All matches of [/#(\d+)/g] from left to right.  [cur] holds the digits
    read since the last hash sign, if the scan is behind one. *)
Fixpoint scan_hash_digits (cur : option string) (s : string) : list string :=
  match s with
  | EmptyString => flush cur
  | String c s' =>
      if is_digit c then
        match cur with
        | Some acc => scan_hash_digits (Some (acc +:+ String c EmptyString)) s'
        | None => scan_hash_digits None s'
        end
      else
        (flush cur ++
         scan_hash_digits (if is_hash c then Some EmptyString else None) s')%list
  end.

(** [s.match(/#(\d+)/g)]: the array of matches, or [null] when there is
    none. *)
Definition match_hash_digits (s : string) : option (list string) :=
  match scan_hash_digits None s with
  | [] => None
  | ms => Some ms
  end.

(** [s.replace(c, "")] for a one-character pattern: the first occurrence is
    removed. *)
Fixpoint replace_first (c : ascii) (s : string) : string :=
  match s with
  | EmptyString => EmptyString
  | String a s' => if Ascii.eqb a c then s' else String a (replace_first c s')
  end.

(** [s.includes(t)] *)
Fixpoint includes (s t : string) : bool :=
  String.prefix t s ||
  match s with
  | EmptyString => false
  | String _ s' => includes s' t
  end.

(** [Promise.all([pa, pb])]: both requests are sent, in this order, before
    either is awaited; the join rejects when one of them rejects (with the
    first rejection in request order). *)
Definition Promise_all {A B} (pa : M A) (pb : M B) : M (A * B) :=
  fun tr =>
    let '(oa, tr1) := pa tr in
    let '(ob, tr2) := pb tr1 in
    (match oa, ob with
     | Returned a, Returned b => Returned (a, b)
     | Thrown e, _ => Thrown e
     | _, Thrown e => Thrown e
     end, tr2).

#[local] Open Scope js_scope.

(** ** The class *)

Section PullReviewer.

(** Built-ins of the runtime whose results are floats: [Number(s)] on a
    string, [Number(o)] on an object (through its primitive value) and
    [new Date(s).getTime()]. *)
Variable StringToNumber : string -> number.
Variable ObjectToNumber : jsval -> number.
Variable Date_getTime : string -> number.

(** The loose JSON parser of [src/helpers/loose-json-parsing], which is
    not among the sources: it returns a value or throws. *)
Variable parseLooseJson : string -> outcome jsval.

(** [this.context] and the collaborators it gives access to. *)
Variable context : Context.
Variable w : world.

(** [Number(v)] *)
Definition Number (v : jsval) : number :=
  match v with
  | JUndefined => NaN
  | JNull => Num.of_Z 0
  | JBool b => Num.of_Z (if b then 1 else 0)
  | JNum n => n
  | JStr s => StringToNumber s
  | JArr _ | JObj _ => ObjectToNumber v
  end.

(** [const { key } = v]: destructuring [null] or [undefined] throws; a
    key that a value does not have reads as [undefined]. *)
Definition get_property (v : jsval) (key : string) : outcome jsval :=
  match v with
  | JUndefined | JNull =>
      Thrown (TypeError "Cannot destructure property of null or undefined")
  | JObj props => Returned (default JUndefined (props !! key))
  | _ => Returned JUndefined
  end.

Definition _oneDay : number := Num.of_Z (24 * 60 * 60 * 1000).

Definition submitCodeReview (review : string) (st : CodeReviewStatus)
  : M unit :=
  let p := ctx_payload context in
  let owner := repository_owner_login p in
  let name := repository_name p in
  let number := payload_number p in
  try_catch
    (_ <- request (pulls_createReview owner name number review st)
                  (createReview w owner name number review st) ;;
     ret tt)
    (fun er => throw (logger_error_with "Failed to submit code review" er)).

Definition canPerformReview : M bool :=
  let p := ctx_payload context in
  let owner := repository_owner_login p in
  let name := repository_name p in
  let number := payload_number p in
  timeline <- request (issues_listEvents owner name number)
                      (listEvents w owner name number) ;;
  let reviews :=
    List.filter (fun ev => String.eqb (event ev) "reviewed") timeline in
  let botReviews :=
    List.filter (fun review => String.eqb (actor_type review) "Bot")
                reviews in
  if Nat.eqb (length botReviews) 0 then ret true
  else
    match botReviews !! (length botReviews - 1)%nat with
    | None => throw (TypeError "Cannot read properties of undefined")
    | Some lastReview =>
        let lastReviewDate := Date_getTime (created_at lastReview) in
        let diff := Num.sub (Num.of_Z (now w)) lastReviewDate in
        if Num.lt diff _oneDay
        then throw (logger_error "Only one review per day is allowed")
        else ret true
    end.

Definition convertPullToDraft (nodeId : string) : M unit :=
  try_catch
    (request (graphql_convertPullRequestToDraft nodeId)
             (convertPullRequestToDraft w nodeId))
    (fun e =>
       throw (logger_error_with
                "Failed to convert pull request to draft mode: " e)).

Definition _collectGroundTruths
    (languages : list (string * number))
    (dependencies devDependencies : option (gmap string string))
  : list string :=
  let groundTruths := [] in
  let groundTruths :=
    if Nat.eqb (length languages) 0
    then (groundTruths ++ ["No languages found in the repository"])%list
    else groundTruths in
  let groundTruths :=
    match dependencies with
    | Some d =>
        if Nat.eqb (size d) 0
        then (groundTruths ++ ["No dependencies found in the repository"])%list
        else groundTruths
    | None => groundTruths
    end in
  let groundTruths :=
    match devDependencies with
    | Some d =>
        if Nat.eqb (size d) 0
        then (groundTruths ++
              ["No devDependencies found in the repository"])%list
        else groundTruths
    | None => groundTruths
    end in
  groundTruths.

Definition checkIfPrClosesIssues (owner repo : string) (pr_number : number)
  : M ClosesIssues :=
  if Num.falsy pr_number
  then throw (Error "[checkIfPrClosesIssues]: pr_number is required")
  else
    try_catch
      (result <- request
                   (graphql_closedByPullRequestsReferences owner repo
                      pr_number)
                   (closedByPullRequestsReferences w owner repo pr_number) ;;
       let closingIssues :=
         List.map
           (fun node =>
              {| ref_number := node_number node;
                 ref_title := node_title node;
                 ref_url := node_url node;
                 ref_body := node_body node;
                 ref_repository := (node_name node, node_owner node) |})
           result in
       if (0 <? length closingIssues)%nat
       then ret {| closesIssues := true; issues := closingIssues |}
       else ret {| closesIssues := false; issues := [] |})
      (fun _ => ret {| closesIssues := false; issues := [] |}).

Definition getTaskNumberFromPullRequest : M number :=
  let pull_request := payload_pull_request (ctx_payload context) in
  r <- checkIfPrClosesIssues (base_repo_owner_login pull_request)
                             (base_repo_name pull_request)
                             (pull_number pull_request) ;;
  let closingIssues := issues r in
  issueNumber <-
    (if Nat.eqb (length closingIssues) 0 then
       let linkedViaBodyHash := body pull_request ≫= match_hash_digits in
       match linkedViaBodyHash with
       | Some (first :: _) =>
           ret (Number (JStr (replace_first "#"%char first)))
       | _ =>
           convertPullToDraft (node_id pull_request) ;;;
           throw (logger_error
                    "You need to link an issue and after that convert the PR to ready for review")
       end
     else if (1 <? length closingIssues)%nat then
       throw (logger_error
                "Multiple tasks linked to this PR, needs investigated to see how best to handle it.")
     else
       match closingIssues with
       | first :: _ => ret (ref_number first)
       | [] => throw (TypeError "Cannot read properties of undefined")
       end) ;;
  if Num.falsy issueNumber
  then throw (logger_error "Task number not found")
  else ret issueNumber.

Definition reviewPull : M CompletionsType :=
  let model := anthropicAiModel context in
  let appName := UBIQUITY_OS_APP_NAME context in
  taskNumber <- getTaskNumberFromPullRequest ;;
  fetched <- request (call_fetchIssue taskNumber) (fetchIssue w taskNumber) ;;
  match fetched with
  | None => throw (logger_error "Error fetching issue, Aborting")
  | Some issue =>
      let taskSpecification := default "" (issue_body issue) in
      formattedSpecAndPull <-
        request (call_formatSpecAndPull issue) (formatSpecAndPull w issue) ;;
      fetchedSignals <-
        Promise_all
          (request call_fetchRepoLanguageStats (fetchRepoLanguageStats w))
          (request call_fetchRepoDependencies (fetchRepoDependencies w)) ;;
      let languages := fst fetchedSignals in
      let deps := snd fetchedSignals in
      let groundTruths :=
        _collectGroundTruths languages (dependencies deps)
                             (devDependencies deps) in
      if Nat.eqb (length groundTruths) 3 then
        request
          (completions_createCompletion model formattedSpecAndPull
             groundTruths appName (getModelMaxTokenLimit w model))
          (createCompletion w model formattedSpecAndPull groundTruths
             appName (getModelMaxTokenLimit w model))
      else
        groundTruths <-
          request (call_findGroundTruths taskSpecification)
                  (findGroundTruths w taskSpecification) ;;
        request
          (completions_createCompletion model formattedSpecAndPull
             groundTruths appName (getModelMaxTokenLimit w model))
          (createCompletion w model formattedSpecAndPull groundTruths
             appName (getModelMaxTokenLimit w model))
  end.

(** The [try] block of [parsePullReviewData]. *)
Definition parsePullReviewData_body (input : string)
  : outcome PullReviewVerdict :=
  match parseLooseJson input with
  | Thrown e => Thrown e
  | Returned parsedInput =>
      match get_property parsedInput "confidenceThreshold",
            get_property parsedInput "reviewComment" with
      | Returned rawThreshold, Returned rawComment =>
          if negb (String.eqb (typeof rawThreshold) "number") &&
             (negb (String.eqb (typeof rawThreshold) "string") ||
              Num.isNaN (Number rawThreshold))
          then Thrown (logger_error "Invalid or missing confidenceThreshold")
          else
            match rawComment with
            | JStr reviewComment =>
                Returned {| confidenceThreshold := Number rawThreshold;
                            reviewComment := reviewComment |}
            | _ => Thrown (logger_error "Invalid or missing reviewComment")
            end
      | Thrown e, _ | _, Thrown e => Thrown e
      end
  end.

Definition parsePullReviewData (input : string) : outcome PullReviewVerdict :=
  match parsePullReviewData_body input with
  | Returned v => Returned v
  | Thrown e =>
      Thrown (logger_error_with "Couldn't parse JSON output; Aborting" e)
  end.

Definition _handleCodeReview : M CallbackResult :=
  let pull_request := payload_pull_request (ctx_payload context) in
  pullReviewData <- reviewPull ;;
  verdict <- lift (parsePullReviewData (answer pullReviewData)) ;;
  let reviewComment := reviewComment verdict in
  let confidenceThreshold := confidenceThreshold verdict in
  (if Num.lt confidenceThreshold (Fin (1 # 2))
   then convertPullToDraft (node_id pull_request)
   else ret tt) ;;;
  submitCodeReview reviewComment
    (if Num.gt confidenceThreshold (Fin (1 # 2))
     then COMMENT else REQUEST_CHANGES) ;;;
  ret {| status := 200; reason := "Success" |}.

Definition performPullPrecheck : M CallbackResult :=
  let pull_request := payload_pull_request (ctx_payload context) in
  if draft pull_request then
    ret {| status := 200;
           reason :=
             logger_info_raw "PR is in draft mode, no action required" |}
  else if String.eqb (state pull_request) "closed" then
    ret {| status := 200;
           reason := logger_info_raw "PR is closed, no action required" |}
  else
    allowed <- canPerformReview ;;
    if negb allowed then
      ret {| status := 200;
             reason :=
               logger_info_raw "Cannot perform review at this time" |}
    else _handleCodeReview.

End PullReviewer.

(** ** A concrete runtime, for running the class on examples

    The three built-ins are instantiated on the inputs the examples need:
    decimal numerals for [Number], and UTC timestamps of the form
    [YYYY-MM-DDTHH:MM:SSZ], in which the source-control API reports dates,
    for [Date]. *)

Definition digit_value (c : ascii) : option Z :=
  if is_digit c then Some (Z.of_nat (nat_of_ascii c) - 48)%Z else None.

Fixpoint digits_value (acc : Z) (s : string) : option Z :=
  match s with
  | EmptyString => Some acc
  | String c s' =>
      match digit_value c with
      | Some d => digits_value (10 * acc + d)%Z s'
      | None => None
      end
  end.

(** [Number(s)] for a string of decimal digits below 2^53 (the empty string
    converts to 0).  The examples apply it to such strings only; on any
    other string the value is a placeholder. *)
Definition decimal_StringToNumber (s : string) : number :=
  match digits_value 0 s with
  | Some z => if (z <? 2 ^ 53)%Z then Num.of_Z z else NaN
  | None => NaN
  end.

Definition no_ObjectToNumber (v : jsval) : number := NaN.

Definition days_from_civil (y m d : Z) : Z :=
  let y' := (if m <=? 2 then y - 1 else y)%Z in
  let era := (y' / 400)%Z in
  let yoe := (y' - era * 400)%Z in
  let mp := (if m <=? 2 then m + 9 else m - 3)%Z in
  let doy := ((153 * mp + 2) / 5 + d - 1)%Z in
  let doe := (yoe * 365 + yoe / 4 - yoe / 100 + doy)%Z in
  (era * 146097 + doe - 719468)%Z.

Definition days_in_month (y m : Z) : Z :=
  (if m =? 2 then
     if ((y mod 4 =? 0) && negb (y mod 100 =? 0)) || (y mod 400 =? 0)
     then 29 else 28
   else if (m =? 4) || (m =? 6) || (m =? 9) || (m =? 11) then 30 else 31)%Z.

Definition field (s : string) (start len : nat) : option Z :=
  match String.substring start len s with
  | EmptyString => None
  | t => digits_value 0 t
  end.

Definition char_at (s : string) (i : nat) (c : ascii) : bool :=
  match String.get i s with
  | Some a => Ascii.eqb a c
  | None => false
  end.

(** [new Date(s).getTime()] for [s] of the form [YYYY-MM-DDTHH:MM:SSZ].
    The examples apply it to such strings only; any other string is taken
    for an invalid date. *)
Definition iso8601_getTime (s : string) : number :=
  if Nat.eqb (String.length s) 20
     && char_at s 4 "-" && char_at s 7 "-" && char_at s 10 "T"
     && char_at s 13 ":" && char_at s 16 ":" && char_at s 19 "Z"
  then
    match field s 0 4, field s 5 2, field s 8 2,
          field s 11 2, field s 14 2, field s 17 2 with
    | Some y, Some mo, Some d, Some h, Some mi, Some se =>
        if ((1 <=? mo) && (mo <=? 12) && (1 <=? d)
            && (d <=? days_in_month y mo)
            && (h <=? 23) && (mi <=? 59) && (se <=? 59))%Z
        then Num.of_Z
               ((((days_from_civil y mo d * 24 + h) * 60 + mi) * 60 + se)
                * 1000)%Z
        else NaN
    | _, _, _, _, _, _ => NaN
    end
  else NaN.

(** ** Vocabulary of the statements *)

Definition no_languages : string := "No languages found in the repository".
Definition no_dependencies : string :=
  "No dependencies found in the repository".
Definition no_devDependencies : string :=
  "No devDependencies found in the repository".

(** A mapping that is present and has zero keys. *)
Definition present_and_empty (d : option (gmap string string)) : Prop :=
  exists m, d = Some m /\ dom m = ∅.

Definition no_linked_issues : ClosesIssues :=
  {| closesIssues := false; issues := [] |}.

(** What the query's answer becomes when it succeeds. *)
Definition to_ClosingIssueRef (node : edge_node) : ClosingIssueRef :=
  {| ref_number := node_number node;
     ref_title := node_title node;
     ref_url := node_url node;
     ref_body := node_body node;
     ref_repository := (node_name node, node_owner node) |}.

(** The raw threshold is a number, or a string that [Number] does not turn
    into [NaN]. *)
Definition numeric (StringToNumber : string -> number) (v : jsval) : Prop :=
  match v with
  | JNum _ => True
  | JStr s => Num.isNaN (StringToNumber s) = false
  | _ => False
  end.

(** The property [key] of a parsed value, [undefined] when it is missing. *)
Definition property (v : jsval) (key : string) : jsval :=
  match v with
  | JObj props => default JUndefined (props !! key)
  | _ => JUndefined
  end.

Definition destructurable (v : jsval) : Prop :=
  v <> JUndefined /\ v <> JNull.

(** An event of kind "reviewed" whose actor is of type "Bot". *)
Definition BotReview (ev : timeline_event) : Prop :=
  event ev = "reviewed" /\ actor_type ev = "Bot".

Definition is_bot_review (ev : timeline_event) : bool :=
  String.eqb (event ev) "reviewed" && String.eqb (actor_type ev) "Bot".

Definition bot_reviews (timeline : list timeline_event)
  : list timeline_event :=
  List.filter (fun review => String.eqb (actor_type review) "Bot")
    (List.filter (fun ev => String.eqb (event ev) "reviewed") timeline).

Definition only_one_review_per_day : error :=
  LogReturn "Only one review per day is allowed" None.

(** The [listEvents] request of a context. *)
Definition listEvents_call (context : Context) : call :=
  let p := ctx_payload context in
  issues_listEvents (repository_owner_login p) (repository_name p)
    (payload_number p).

Definition listEvents_response (context : Context) (w : world)
  : response (list timeline_event) :=
  let p := ctx_payload context in
  listEvents w (repository_owner_login p) (repository_name p)
    (payload_number p).

Definition cannot_perform_review : string :=
  "Cannot perform review at this time".

(** The draft-conversion request and the review request of a context. *)
Definition convert_call (context : Context) : call :=
  graphql_convertPullRequestToDraft
    (node_id (payload_pull_request (ctx_payload context))).

Definition review_call (context : Context) (comment : string)
    (ev : CodeReviewStatus) : call :=
  let p := ctx_payload context in
  pulls_createReview (repository_owner_login p) (repository_name p)
    (payload_number p) comment ev.

Definition must_link_an_issue : error :=
  LogReturn
    "You need to link an issue and after that convert the PR to ready for review"
    None.

Definition multiple_tasks_linked : error :=
  LogReturn
    "Multiple tasks linked to this PR, needs investigated to see how best to handle it."
    None.

(** A request served by the completion client: the completion itself, or
    the derivation of ground truths from the task specification. *)
Definition is_completion_call (c : call) : bool :=
  match c with
  | completions_createCompletion _ _ _ _ _ | call_findGroundTruths _ => true
  | _ => false
  end.

Definition closing_call (context : Context) : call :=
  let pr := payload_pull_request (ctx_payload context) in
  graphql_closedByPullRequestsReferences (base_repo_owner_login pr)
    (base_repo_name pr) (pull_number pr).

Definition closing_response (context : Context) (w : world)
  : response (list edge_node) :=
  let pr := payload_pull_request (ctx_payload context) in
  closedByPullRequestsReferences w (base_repo_owner_login pr)
    (base_repo_name pr) (pull_number pr).

Fixpoint all_digits (s : string) : bool :=
  match s with
  | EmptyString => true
  | String c s' => is_digit c && all_digits s'
  end.

Definition starts_with_digit (s : string) : bool :=
  match s with
  | EmptyString => false
  | String c _ => is_digit c
  end.

(** No hash sign of [s] is followed by a digit. *)
Definition no_token (s : string) : Prop :=
  forall s1 d s2,
    s = s1 +:+ String "#"%char (String d s2) -> is_digit d = false.

(** [digits] is the digit run of the leftmost [#<digits>] token of [b]. *)
Definition first_token (b digits : string) : Prop :=
  exists pre rest,
    b = pre +:+ String "#"%char (digits +:+ rest) /\
    no_token pre /\
    digits <> EmptyString /\
    all_digits digits = true /\
    starts_with_digit rest = false.

Definition hash_prefix (cur : option string) : string :=
  match cur with
  | Some _ => String "#"%char EmptyString
  | None => EmptyString
  end.

Fixpoint hash_free (s : string) : bool :=
  match s with
  | EmptyString => true
  | String c s' => negb (is_hash c) && hash_free s'
  end.

Definition outcome_of {A} (r : response A) : outcome A :=
  match r with
  | Resolved a => Returned a
  | Rejected e => Thrown e
  end.

(** The ground truths of the [createCompletion] requests of a trace, in
    order. *)
Fixpoint passed_ground_truths (tr : list call) : list (list string) :=
  match tr with
  | [] => []
  | completions_createCompletion _ _ gts _ _ :: tr' =>
      gts :: passed_ground_truths tr'
  | _ :: tr' => passed_ground_truths tr'
  end.

Definition is_findGroundTruths (c : call) : bool :=
  match c with
  | call_findGroundTruths _ => true
  | _ => false
  end.

Definition no_completion_call (tr : list call) : Prop :=
  forallb (fun c => negb (is_completion_call c)) tr = true.

(** The [createCompletion] request for given context and ground truths,
    and its answer. *)
Definition completion_call (context : Context) (w : world)
    (formatted : string) (gts : list string) : call :=
  completions_createCompletion (anthropicAiModel context) formatted gts
    (UBIQUITY_OS_APP_NAME context)
    (getModelMaxTokenLimit w (anthropicAiModel context)).

Definition completion_response (context : Context) (w : world)
    (formatted : string) (gts : list string) : response CompletionsType :=
  createCompletion w (anthropicAiModel context) formatted gts
    (UBIQUITY_OS_APP_NAME context)
    (getModelMaxTokenLimit w (anthropicAiModel context)).

(** ** Example inputs *)

(** The loose JSON parser on the completion answers of the examples (the
    first is the mocked answer of the repository's test suite). *)
Definition example_parseLooseJson (input : string) : outcome jsval :=
  if String.eqb input "{confidenceThreshold: 1, reviewComment: 'passed'}" then
    Returned (JObj (<["confidenceThreshold" := JNum (Num.of_Z 1)]>
                      (<["reviewComment" := JStr "passed"]> ∅)))
  else if String.eqb input
            "{confidenceThreshold: 0.5, reviewComment: 'unsure'}" then
    Returned (JObj (<["confidenceThreshold" := JNum (Fin (1 # 2))]>
                      (<["reviewComment" := JStr "unsure"]> ∅)))
  else if String.eqb input
            "{confidenceThreshold: 0.2, reviewComment: 'rework'}" then
    Returned (JObj (<["confidenceThreshold" := JNum (Fin (1 # 5))]>
                      (<["reviewComment" := JStr "rework"]> ∅)))
  else if String.eqb input "{confidenceThreshold: 1}" then
    Returned (JObj (<["confidenceThreshold" := JNum (Num.of_Z 1)]> ∅))
  else Thrown (Error "Unexpected token").

Definition example_pull_request : pull_request :=
  {| draft := false;
     state := "open";
     pull_number := Num.of_Z 3;
     node_id := "PR_kwDOexample3";
     body := Some "Resolves #1";
     base_repo_owner_login := "ubiquity";
     base_repo_name := "test-repo" |}.

Definition example_context (pr : pull_request) : Context :=
  {| ctx_payload :=
       {| payload_pull_request := pr;
          payload_number := Num.of_Z 3;
          repository_owner_login := "ubiquity";
          repository_name := "test-repo" |};
     UBIQUITY_OS_APP_NAME := "UbiquityOS";
     anthropicAiModel := "claude" |}.

Definition example_edge (n : Z) : edge_node :=
  {| node_number := Num.of_Z n;
     node_title := "task";
     node_url := "https://example.invalid/issues";
     node_body := "specification";
     node_name := "test-repo";
     node_owner := "ubiquity" |}.

(** A world in which every collaborator answers: the clock reads
    2024-01-02T00:00:00Z, the timeline and the closing references are
    given, the repository has no language, dependency or devDependency
    unless [languages] says otherwise, and the completion client answers
    [completion_answer]. *)
Definition example_world
    (timeline : list timeline_event)
    (closing : response (list edge_node))
    (languages : list (string * number))
    (completion_answer : string) : world :=
  {| now := 1704153600000;
     listEvents := fun _ _ _ => Resolved timeline;
     createReview := fun _ _ _ _ _ => Resolved "https://example.invalid/review";
     convertPullRequestToDraft := fun _ => Resolved tt;
     closedByPullRequestsReferences := fun _ _ _ => closing;
     fetchIssue := fun _ => Resolved (Some {| issue_body := Some "spec" |});
     formatSpecAndPull := fun _ => Resolved "spec and diff";
     fetchRepoLanguageStats := Resolved languages;
     fetchRepoDependencies :=
       Resolved {| dependencies := Some ∅; devDependencies := Some ∅ |};
     findGroundTruths := fun _ => Resolved ["derived from the task"];
     createCompletion :=
       fun _ _ gts _ _ =>
         Resolved {| answer := completion_answer;
                     completion_groundTruths := gts;
                     tokenUsage := (Num.of_Z 1000, Num.of_Z 150, Num.of_Z 1150) |};
     getModelMaxTokenLimit := fun _ => Num.of_Z 50000 |}.

Definition bot_review (at_time : string) : timeline_event :=
  {| event := "reviewed"; actor_type := "Bot"; created_at := at_time |}.

(** The class on the concrete runtime. *)
Definition example_precheck (pr : pull_request) (w : world)
  : outcome CallbackResult * list call :=
  run (performPullPrecheck decimal_StringToNumber no_ObjectToNumber
         iso8601_getTime example_parseLooseJson (example_context pr) w).

Definition test_answer : string :=
  "{confidenceThreshold: 1, reviewComment: 'passed'}".


Definition human_comment : timeline_event :=
  {| event := "commented"; actor_type := "User";
     created_at := "2024-01-01T23:00:00Z" |}.

Definition human_review : timeline_event :=
  {| event := "reviewed"; actor_type := "User";
     created_at := "2024-01-01T23:30:00Z" |}.

Definition draft_pull_request : pull_request :=
  {| draft := true;
     state := "open";
     pull_number := Num.of_Z 3;
     node_id := "PR_kwDOexample3";
     body := Some "Resolves #1";
     base_repo_owner_login := "ubiquity";
     base_repo_name := "test-repo" |}.

Definition closed_pull_request : pull_request :=
  {| draft := false;
     state := "closed";
     pull_number := Num.of_Z 3;
     node_id := "PR_kwDOexample3";
     body := Some "Resolves #1";
     base_repo_owner_login := "ubiquity";
     base_repo_name := "test-repo" |}.

Definition closed_draft_pull_request : pull_request :=
  {| draft := true;
     state := "closed";
     pull_number := Num.of_Z 3;
     node_id := "PR_kwDOexample3";
     body := Some "Resolves #1";
     base_repo_owner_login := "ubiquity";
     base_repo_name := "test-repo" |}.

Definition quiet_world : world :=
  example_world [] (Resolved [example_edge 1]) [] test_answer.

Definition throttled_world : world :=
  example_world
    [bot_review "2023-12-30T08:00:00Z"; human_review;
     bot_review "2024-01-01T23:00:00Z"; human_comment]
    (Resolved [example_edge 1]) [] test_answer.

Definition recently_reviewed_world : world :=
  example_world [bot_review "2024-01-01T12:00:00Z"]
    (Resolved [example_edge 1]) [] test_answer.

Definition half_answer : string :=
  "{confidenceThreshold: 0.5, reviewComment: 'unsure'}".

Definition half_completion : CompletionsType :=
  {| answer := half_answer;
     completion_groundTruths := [no_languages; no_dependencies;
                                 no_devDependencies];
     tokenUsage := (Num.of_Z 1000, Num.of_Z 150, Num.of_Z 1150) |}.

Definition undecided_world : world :=
  example_world [] (Resolved [example_edge 1]) [] half_answer.

Definition example_trace_before_decision : list call :=
  [issues_listEvents "ubiquity" "test-repo" (Num.of_Z 3);
   graphql_closedByPullRequestsReferences "ubiquity" "test-repo" (Num.of_Z 3);
   call_fetchIssue (Num.of_Z 1);
   call_formatSpecAndPull {| issue_body := Some "spec" |};
   call_fetchRepoLanguageStats;
   call_fetchRepoDependencies;
   completions_createCompletion "claude" "spec and diff"
     ["No languages found in the repository";
      "No dependencies found in the repository";
      "No devDependencies found in the repository"]
     "UbiquityOS" (Num.of_Z 50000)].

Definition unlinked_pull_request : pull_request :=
  {| draft := false;
     state := "open";
     pull_number := Num.of_Z 3;
     node_id := "PR_kwDOexample3";
     body := Some "Small refactoring, no issue";
     base_repo_owner_login := "ubiquity";
     base_repo_name := "test-repo" |}.

Definition example_closing_call : call :=
  graphql_closedByPullRequestsReferences "ubiquity" "test-repo" (Num.of_Z 3).

Definition typescript_languages : list (string * number) :=
  [("ts", Num.of_Z 100)].

Definition example_completion (gts : list string) : CompletionsType :=
  {| answer := test_answer;
     completion_groundTruths := gts;
     tokenUsage := (Num.of_Z 1000, Num.of_Z 150, Num.of_Z 1150) |}.

Definition example_fetched : list call :=
  [example_closing_call;
   call_fetchIssue (Num.of_Z 1);
   call_formatSpecAndPull {| issue_body := Some "spec" |};
   call_fetchRepoLanguageStats;
   call_fetchRepoDependencies].

Definition example_completion_call (gts : list string) : call :=
  completions_createCompletion "claude" "spec and diff" gts "UbiquityOS"
    (Num.of_Z 50000).

(** ** Vocabulary of the further properties *)

Definition is_convert (c : call) : bool :=
  match c with
  | graphql_convertPullRequestToDraft _ => true
  | _ => false
  end.

Definition is_review (c : call) : bool :=
  match c with
  | pulls_createReview _ _ _ _ _ => true
  | _ => false
  end.

Definition is_createCompletion (c : call) : bool :=
  match c with
  | completions_createCompletion _ _ _ _ _ => true
  | _ => false
  end.

Definition is_listEvents (c : call) : bool :=
  match c with
  | issues_listEvents _ _ _ => true
  | _ => false
  end.

Definition is_APPROVE (ev : CodeReviewStatus) : bool :=
  match ev with APPROVE => true | _ => false end.

Definition is_REQUEST_CHANGES (ev : CodeReviewStatus) : bool :=
  match ev with REQUEST_CHANGES => true | _ => false end.

(** No request follows a review request. *)
Fixpoint nothing_after_review (tr : list call) : bool :=
  match tr with
  | [] => true
  | c :: tr' =>
      (if is_review c then match tr' with [] => true | _ => false end
       else true) && nothing_after_review tr'
  end.

(** How many requests of a kind a trace holds. *)
Definition count (kind : call -> bool) (tr : list call) : nat :=
  length (List.filter kind tr).

(** The events of the review requests of a trace, in order. *)
Fixpoint review_events (tr : list call) : list CodeReviewStatus :=
  match tr with
  | [] => []
  | pulls_createReview _ _ _ _ ev :: tr' => ev :: review_events tr'
  | _ :: tr' => review_events tr'
  end.

(** What holds of the requests of a run, whatever the collaborators
    answer. *)
Definition run_invariant (tr : list call) : Prop :=
  (count is_listEvents tr <= 1)%nat /\
  (count is_createCompletion tr <= 1)%nat /\
  (count is_convert tr <= 1)%nat /\
  (count is_review tr <= 1)%nat /\
  forallb (fun ev => negb (is_APPROVE ev)) (review_events tr) = true /\
  nothing_after_review tr = true /\
  (existsb is_convert tr = true ->
   forallb is_REQUEST_CHANGES (review_events tr) = true).

(** The outcome of a run of the precheck that returns: a short-circuit
    before any request, or "Success" after one completion and a review as
    last request. *)
Definition returned_run (r : CallbackResult) (tr : list call) : Prop :=
  status r = 200%Z /\
  ((reason r = "PR is in draft mode, no action required" /\ tr = []) \/
   (reason r = "PR is closed, no action required" /\ tr = []) \/
   (reason r = "Success" /\
    count is_listEvents tr = 1%nat /\
    count is_createCompletion tr = 1%nat /\
    count is_review tr = 1%nat /\
    exists before c, tr = (before ++ [c])%list /\ is_review c = true)).

Definition task_number_not_found : error :=
  LogReturn "Task number not found" None.

Definition pr_number_required : error :=
  Error "[checkIfPrClosesIssues]: pr_number is required".

Definition error_fetching_issue : error :=
  LogReturn "Error fetching issue, Aborting" None.

Definition failed_to_convert (e : error) : error :=
  LogReturn "Failed to convert pull request to draft mode: " (Some e).

Definition failed_to_submit (e : error) : error :=
  LogReturn "Failed to submit code review" (Some e).

Definition could_not_parse (cause : error) : error :=
  LogReturn "Couldn't parse JSON output; Aborting" (Some cause).

Definition invalid_confidenceThreshold : error :=
  LogReturn "Invalid or missing confidenceThreshold" None.

Definition invalid_reviewComment : error :=
  LogReturn "Invalid or missing reviewComment" None.

(** The requests of [reviewPull] between the task linker and the choice of
    ground truths. *)
Definition fetch_calls (n : number) (i : issue) : list call :=
  [call_fetchIssue n; call_formatSpecAndPull i;
   call_fetchRepoLanguageStats; call_fetchRepoDependencies].

(** A match of [/#(\d+)/]: a hash sign and at least one digit, nothing
    else. *)
Definition hash_digits (m : string) : Prop :=
  exists ds, m = String "#"%char ds /\ ds <> EmptyString /\
             all_digits ds = true.

(** The requests between the completion and the review, and the event of
    the review, as the verdict decides them. *)
Definition conversion_of (context : Context) (v : PullReviewVerdict)
  : list call :=
  if Num.lt (confidenceThreshold v) (Fin (1 # 2))
  then [convert_call context] else [].

Definition event_of (v : PullReviewVerdict) : CodeReviewStatus :=
  if Num.gt (confidenceThreshold v) (Fin (1 # 2))
  then COMMENT else REQUEST_CHANGES.

(** The closing-references query answers with no reference, or fails. *)
Definition no_closing_reference (context : Context) (w : world) : Prop :=
  closing_response context w = Resolved [] \/
  exists e, closing_response context w = Rejected e.

(** ** Example inputs of the further properties *)

(** A world given by the answers of the collaborators that the examples
    vary; the others answer as in [example_world]. *)
Definition world_of
    (events : response (list timeline_event))
    (closing : response (list edge_node))
    (fetched_issue : response (option issue))
    (languages : response (list (string * number)))
    (deps : response RepoDependencies)
    (conversion : response unit)
    (completion_answer : string)
    (review : response string) : world :=
  {| now := 1704153600000;
     listEvents := fun _ _ _ => events;
     createReview := fun _ _ _ _ _ => review;
     convertPullRequestToDraft := fun _ => conversion;
     closedByPullRequestsReferences := fun _ _ _ => closing;
     fetchIssue := fun _ => fetched_issue;
     formatSpecAndPull := fun _ => Resolved "spec and diff";
     fetchRepoLanguageStats := languages;
     fetchRepoDependencies := deps;
     findGroundTruths := fun _ => Resolved ["derived from the task"];
     createCompletion :=
       fun _ _ gts _ _ =>
         Resolved {| answer := completion_answer;
                     completion_groundTruths := gts;
                     tokenUsage := (Num.of_Z 1000, Num.of_Z 150, Num.of_Z 1150) |};
     getModelMaxTokenLimit := fun _ => Num.of_Z 50000 |}.

Definition example_issue : issue := {| issue_body := Some "spec" |}.

Definition empty_dependencies : RepoDependencies :=
  {| dependencies := Some ∅; devDependencies := Some ∅ |}.

Definition bad_gateway : error := Rejection "Bad gateway".

Definition pull_request_with_body (b : option string) : pull_request :=
  {| draft := false;
     state := "open";
     pull_number := Num.of_Z 3;
     node_id := "PR_kwDOexample3";
     body := b;
     base_repo_owner_login := "ubiquity";
     base_repo_name := "test-repo" |}.

Definition unnumbered_pull_request : pull_request :=
  {| draft := false;
     state := "open";
     pull_number := Num.of_Z 0;
     node_id := "PR_kwDOexample0";
     body := Some "Resolves #1";
     base_repo_owner_login := "ubiquity";
     base_repo_name := "test-repo" |}.

Definition issue_world (fetched_issue : response (option issue)) : world :=
  world_of (Resolved []) (Resolved [example_edge 1]) fetched_issue
    (Resolved []) (Resolved empty_dependencies) (Resolved tt)
    test_answer (Resolved "https://example.invalid/review").

Definition signals_world
    (languages : response (list (string * number)))
    (deps : response RepoDependencies) : world :=
  world_of (Resolved []) (Resolved [example_edge 1])
    (Resolved (Some example_issue)) languages deps (Resolved tt)
    test_answer (Resolved "https://example.invalid/review").

Definition doubtful_answer : string :=
  "{confidenceThreshold: 0.2, reviewComment: 'rework'}".

(** A world in which the pull request is linked and reviewable, given by
    the completion's answer and the answers to the draft conversion and to
    the review submission. *)
Definition verdict_world
    (completion_answer : string) (conversion : response unit)
    (review : response string) : world :=
  world_of (Resolved []) (Resolved [example_edge 1])
    (Resolved (Some example_issue)) (Resolved []) (Resolved empty_dependencies)
    conversion completion_answer review.

Definition example_reviewed : list call :=
  (example_fetched ++
   [example_completion_call
      [no_languages; no_dependencies; no_devDependencies]])%list.

Definition example_completion_of (completion_answer : string)
  : CompletionsType :=
  {| answer := completion_answer;
     completion_groundTruths :=
       [no_languages; no_dependencies; no_devDependencies];
     tokenUsage := (Num.of_Z 1000, Num.of_Z 150, Num.of_Z 1150) |}.

Definition undated_bot_review : timeline_event :=
  {| event := "reviewed"; actor_type := "Bot"; created_at := "yesterday" |}.

(** The loose JSON parser on the answers of the examples on parse errors;
    on any other answer it is [example_parseLooseJson]. *)
Definition faulty_parseLooseJson (input : string) : outcome jsval :=
  if String.eqb input "null" then Returned JNull
  else if String.eqb input "{reviewComment: 'fine'}" then
    Returned (JObj (<["reviewComment" := JStr "fine"]> ∅))
  else if String.eqb input "{confidenceThreshold: true, reviewComment: 7}" then
    Returned (JObj (<["confidenceThreshold" := JBool true]>
                      (<["reviewComment" := JNum (Num.of_Z 7)]> ∅)))
  else example_parseLooseJson input.

Example iso8601_epoch :
  iso8601_getTime "1970-01-01T00:00:00Z" = Num.of_Z 0.
Proof. reflexivity. Qed.

Example iso8601_2024 :
  iso8601_getTime "2024-01-01T12:00:00Z" = Num.of_Z 1704110400000.
Proof. reflexivity. Qed.

Example iso8601_leap_day :
  iso8601_getTime "2024-02-29T23:59:59Z" = Num.of_Z 1709251199000.
Proof. reflexivity. Qed.

Example iso8601_invalid : iso8601_getTime "yesterday" = NaN.
Proof. reflexivity. Qed.

Example match_first_token :
  match_hash_digits "Resolves #12, see also ##7 and #x #345abc" =
  Some ["#12"; "#7"; "#345"].
Proof. reflexivity. Qed.

Example match_no_token : match_hash_digits "no issue # here" = None.
Proof. reflexivity. Qed.

Example replace_first_hash : replace_first "#" "#12" = "12".
Proof. reflexivity. Qed.

(** ** Basic facts on numbers and on the monad *)

Lemma Qltb_lt (x y : Q) : Qltb x y = true <-> (x < y)%Q.
Proof. unfold Qltb, Qlt. apply Z.ltb_lt. Qed.

Lemma Qltb_ge (x y : Q) : Qltb x y = false <-> (y <= x)%Q.
Proof. unfold Qltb, Qle. rewrite Z.ltb_ge. reflexivity. Qed.

Lemma Num_lt_Fin (x y : Q) : Num.lt (Fin x) (Fin y) = true <-> (x < y)%Q.
Proof. apply Qltb_lt. Qed.

Lemma Num_lt_asym (a b : number) : Num.lt a b = true -> Num.lt b a = false.
Proof.
  destruct a as [| |x|], b as [| |y|]; simpl; try congruence.
  rewrite Qltb_lt, Qltb_ge. intros H. apply Qlt_le_weak, H.
Qed.

(** A confidence below 0.5 is not above 0.5: a draft conversion is always
    followed by a "REQUEST_CHANGES" review. *)
Lemma draft_conversion_requests_changes (c : number) :
  Num.lt c (Fin (1 # 2)) = true ->
  (if Num.gt c (Fin (1 # 2)) then COMMENT else REQUEST_CHANGES) =
  REQUEST_CHANGES.
Proof. intros H. unfold Num.gt. rewrite (Num_lt_asym _ _ H). reflexivity. Qed.

Lemma request_resolved {A} (c : call) (r : response A) (a : A) tr :
  r = Resolved a -> request c r tr = (Returned a, (tr ++ [c])%list).
Proof. intros ->. reflexivity. Qed.

Lemma request_rejected {A} (c : call) (r : response A) (e : error) tr :
  r = Rejected e -> request c r tr = (Thrown e, (tr ++ [c])%list).
Proof. intros ->. reflexivity. Qed.

(** ** Ground Truth Collector *)

Lemma size_zero_dom (m : gmap string string) :
  Nat.eqb (size m) 0 = true <-> dom m = ∅.
Proof.
  rewrite Nat.eqb_eq. split; intros H.
  - apply map_size_empty_inv in H. subst m. apply dom_empty_L.
  - apply dom_empty_inv_L in H. subst m. apply map_size_empty.
Qed.

Lemma present_and_empty_dec (d : option (gmap string string)) :
  present_and_empty d <->
  match d with Some m => Nat.eqb (size m) 0 = true | None => False end.
Proof.
  unfold present_and_empty. destruct d as [m|].
  - rewrite size_zero_dom. split.
    + intros (m' & [= <-] & H). exact H.
    + intros H. exists m. auto.
  - split; [intros (m' & H & _); discriminate | tauto].
Qed.

(** The collector's result, fact by fact. *)
Lemma collectGroundTruths_unfold languages deps devDeps :
  _collectGroundTruths languages deps devDeps =
  ((if Nat.eqb (length languages) 0 then [no_languages] else []) ++
   (match deps with
    | Some m => if Nat.eqb (size m) 0 then [no_dependencies] else []
    | None => []
    end) ++
   (match devDeps with
    | Some m => if Nat.eqb (size m) 0 then [no_devDependencies] else []
    | None => []
    end))%list.
Proof.
  unfold _collectGroundTruths, no_languages, no_dependencies,
    no_devDependencies.
  destruct (Nat.eqb (length languages) 0);
    destruct deps as [m1|]; [destruct (Nat.eqb (size m1) 0)| |
                             destruct (Nat.eqb (size m1) 0)|];
    destruct devDeps as [m2|]; try destruct (Nat.eqb (size m2) 0);
    reflexivity.
Qed.

(** C5: [_collectGroundTruths] is a function of its three arguments; its
    result lists, in the fixed order languages, dependencies,
    devDependencies, the fact "No languages found in the repository" iff
    the language list is empty, "No dependencies found in the repository"
    iff the dependencies mapping is present with zero keys, and
    "No devDependencies found in the repository" iff the devDependencies
    mapping is present with zero keys.  On ([], {}, {}) it yields the three
    facts in order, and on ([["ts",100]], {a:"1"}, {}) it yields exactly
    the devDependencies fact. *)
Theorem collectGroundTruths_facts :
  (forall languages deps devDeps,
      let facts := _collectGroundTruths languages deps devDeps in
      sublist facts [no_languages; no_dependencies; no_devDependencies] /\
      (In no_languages facts <-> languages = []) /\
      (In no_dependencies facts <-> present_and_empty deps) /\
      (In no_devDependencies facts <-> present_and_empty devDeps)) /\
  _collectGroundTruths [] (Some ∅) (Some ∅) =
    ["No languages found in the repository";
     "No dependencies found in the repository";
     "No devDependencies found in the repository"] /\
  _collectGroundTruths [("ts", Num.of_Z 100)] (Some {["a" := "1"]}) (Some ∅) =
    ["No devDependencies found in the repository"].
Proof.
  split; [| split; reflexivity].
  intros languages deps devDeps facts. subst facts.
  rewrite collectGroundTruths_unfold.
  rewrite !present_and_empty_dec.
  assert (Hl : Nat.eqb (length languages) 0 = true <-> languages = []).
  { rewrite Nat.eqb_eq. destruct languages; simpl; split; congruence. }
  destruct (Nat.eqb (length languages) 0) eqn:El;
    destruct deps as [m1|]; try destruct (Nat.eqb (size m1) 0) eqn:E1;
    destruct devDeps as [m2|]; try destruct (Nat.eqb (size m2) 0) eqn:E2;
    (split; [simpl; repeat first [apply sublist_nil | apply sublist_skip; fail | constructor] |]).
  all: unfold no_languages, no_dependencies, no_devDependencies; simpl.
  all: intuition (try discriminate; try congruence; auto).
Qed.

(** ** Task Linker: the closing-references query *)

(** C7: with [pr_number = 0], [checkIfPrClosesIssues] throws a plain
    [Error] and sends no request; whenever the closing-references query is
    sent and fails, the failure is absorbed and the function returns
    [{closesIssues: false, issues: []}]. *)
Theorem checkIfPrClosesIssues_asymmetry :
  (forall (w : world) (owner repo : string) (tr : list call),
      checkIfPrClosesIssues w owner repo (Num.of_Z 0) tr =
      (Thrown (Error "[checkIfPrClosesIssues]: pr_number is required"), tr)) /\
  (forall (w : world) (owner repo : string) (pr_number : number)
          (e : error) (tr : list call),
      Num.falsy pr_number = false ->
      closedByPullRequestsReferences w owner repo pr_number = Rejected e ->
      checkIfPrClosesIssues w owner repo pr_number tr =
      (Returned no_linked_issues,
       (tr ++ [graphql_closedByPullRequestsReferences owner repo pr_number])%list)).
Proof.
  split.
  - intros. reflexivity.
  - intros w owner repo pr_number e tr Hpr Hq.
    unfold checkIfPrClosesIssues, try_catch, bind. rewrite Hpr.
    rewrite (request_rejected _ _ e tr Hq). reflexivity.
Qed.

Lemma checkIfPrClosesIssues_asymmetry_witness :
  checkIfPrClosesIssues
    (example_world [] (Rejected (Rejection "Bad gateway")) [] "")
    "ubiquity" "test-repo" (Num.of_Z 3) [] =
  (Returned no_linked_issues,
   [graphql_closedByPullRequestsReferences "ubiquity" "test-repo"
      (Num.of_Z 3)]).
Proof.
  apply (proj2 checkIfPrClosesIssues_asymmetry
           (example_world [] (Rejected (Rejection "Bad gateway")) [] "")
           "ubiquity" "test-repo" (Num.of_Z 3) (Rejection "Bad gateway") []);
    reflexivity.
Defined.

Lemma checkIfPrClosesIssues_resolved
    (w : world) owner repo pr_number (edges : list edge_node) tr :
  Num.falsy pr_number = false ->
  closedByPullRequestsReferences w owner repo pr_number = Resolved edges ->
  checkIfPrClosesIssues w owner repo pr_number tr =
  (Returned {| closesIssues := negb (Nat.eqb (length edges) 0);
               issues := List.map to_ClosingIssueRef edges |},
   (tr ++ [graphql_closedByPullRequestsReferences owner repo pr_number])%list).
Proof.
  intros Hpr Hq. unfold checkIfPrClosesIssues, try_catch, bind.
  rewrite Hpr, (request_resolved _ _ edges tr Hq).
  destruct edges; reflexivity.
Qed.

(** ** Verdict parser *)

Section Parser.

Variable StringToNumber : string -> number.
Variable ObjectToNumber : jsval -> number.
Variable parseLooseJson : string -> outcome jsval.

#[local] Abbreviation parse :=
  (parsePullReviewData StringToNumber ObjectToNumber parseLooseJson).
#[local] Abbreviation toNumber := (Number StringToNumber ObjectToNumber).

Lemma get_property_destructurable (v : jsval) key :
  destructurable v -> get_property v key = Returned (property v key).
Proof. intros [H1 H2]. destruct v; try reflexivity; congruence. Qed.



Lemma parse_thrown_wrapped (input : string) (e : error) :
  parse input = Thrown e ->
  exists cause,
    e = LogReturn "Couldn't parse JSON output; Aborting" (Some cause).
Proof.
  unfold parsePullReviewData.
  destruct (parsePullReviewData_body _ _ _ input) as [v|e0]; [discriminate |].
  intros [= <-]. exists e0. reflexivity.
Qed.


End Parser.



(** ** Review Throttle *)

Lemma is_bot_review_spec (ev : timeline_event) :
  is_bot_review ev = true <-> BotReview ev.
Proof.
  unfold is_bot_review, BotReview.
  rewrite andb_true_iff, !String.eqb_eq. reflexivity.
Qed.

Lemma bot_reviews_filter (timeline : list timeline_event) :
  bot_reviews timeline = List.filter is_bot_review timeline.
Proof.
  unfold bot_reviews, is_bot_review.
  induction timeline as [|ev tl IH]; simpl; [reflexivity |].
  destruct (String.eqb (event ev) "reviewed"); simpl; rewrite IH;
    reflexivity.
Qed.

Lemma bot_reviews_none (timeline : list timeline_event) :
  Forall (fun ev => ~ BotReview ev) timeline -> bot_reviews timeline = [].
Proof.
  rewrite bot_reviews_filter.
  induction 1 as [|ev tl Hev _ IH]; simpl; [reflexivity |].
  destruct (is_bot_review ev) eqn:E; [| exact IH].
  apply is_bot_review_spec in E. contradiction.
Qed.

Lemma bot_reviews_last pre ev post :
  BotReview ev ->
  Forall (fun e => ~ BotReview e) post ->
  exists earlier, bot_reviews (pre ++ ev :: post) = (earlier ++ [ev])%list.
Proof.
  intros Hev Hpost. exists (bot_reviews pre).
  rewrite !bot_reviews_filter, List.filter_app. simpl.
  apply is_bot_review_spec in Hev. rewrite Hev.
  rewrite <- (bot_reviews_filter post), (bot_reviews_none post Hpost).
  reflexivity.
Qed.

Lemma lookup_last_snoc {A} (l : list A) (x : A) :
  (l ++ [x])%list !! (length (l ++ [x]) - 1)%nat = Some x.
Proof.
  rewrite length_app. simpl.
  replace (length l + 1 - 1)%nat with (length l + 0)%nat by lia.
  rewrite lookup_app_r by lia.
  replace (length l + 0 - length l)%nat with 0%nat by lia. reflexivity.
Qed.

Lemma length_snoc_nonzero {A} (l : list A) (x : A) :
  Nat.eqb (length (l ++ [x])) 0 = false.
Proof. rewrite length_app. simpl. apply Nat.eqb_neq. lia. Qed.

Section Throttle.

Variable Date_getTime : string -> number.
Variable context : Context.
Variable w : world.
Variable timeline : list timeline_event.
Hypothesis fetched : listEvents_response context w = Resolved timeline.

(** The throttle's answer once the timeline is fetched. *)
Lemma canPerformReview_fetched (tr : list call) :
  canPerformReview Date_getTime context w tr =
  (match last (bot_reviews timeline) with
   | None => Returned true
   | Some lastReview =>
       if Num.lt (Num.sub (Num.of_Z (now w))
                    (Date_getTime (created_at lastReview))) _oneDay
       then Thrown only_one_review_per_day
       else Returned true
   end, (tr ++ [listEvents_call context])%list).
Proof.
  unfold canPerformReview, bind. unfold listEvents_response in fetched.
  rewrite (request_resolved _ _ timeline tr fetched).
  fold (bot_reviews timeline).
  destruct (bot_reviews timeline) as [|r rs] eqn:E using rev_ind.
  - reflexivity.
  - rewrite length_snoc_nonzero, lookup_last_snoc, last_snoc.
    destruct (Num.lt _ _); reflexivity.
Qed.

Lemma canPerformReview_no_bot_review (tr : list call) :
  Forall (fun ev => ~ BotReview ev) timeline ->
  canPerformReview Date_getTime context w tr =
  (Returned true, (tr ++ [listEvents_call context])%list).
Proof.
  intros H. rewrite canPerformReview_fetched, (bot_reviews_none _ H).
  reflexivity.
Qed.

Lemma canPerformReview_last_bot_review (tr : list call) pre ev post :
  timeline = (pre ++ ev :: post)%list ->
  BotReview ev ->
  Forall (fun e => ~ BotReview e) post ->
  canPerformReview Date_getTime context w tr =
  (if Num.lt (Num.sub (Num.of_Z (now w)) (Date_getTime (created_at ev)))
        _oneDay
   then Thrown only_one_review_per_day
   else Returned true, (tr ++ [listEvents_call context])%list).
Proof.
  intros Htl Hev Hpost. rewrite canPerformReview_fetched.
  destruct (bot_reviews_last pre ev post Hev Hpost) as (earlier & E).
  rewrite Htl, E, last_snoc. reflexivity.
Qed.

End Throttle.

Lemma age_under_one_day (now_ms : Z) (t : Q) :
  Num.lt (Num.sub (Num.of_Z now_ms) (Fin t)) _oneDay = true <->
  (inject_Z now_ms - t < 86400000)%Q.
Proof. unfold _oneDay, Num.of_Z, Num.sub. rewrite Num_lt_Fin. reflexivity. Qed.

Lemma age_one_day_or_more (now_ms : Z) (t : Q) :
  Num.lt (Num.sub (Num.of_Z now_ms) (Fin t)) _oneDay = false <->
  (86400000 <= inject_Z now_ms - t)%Q.
Proof.
  unfold _oneDay, Num.of_Z, Num.sub. simpl Num.lt. rewrite Qltb_ge.
  reflexivity.
Qed.

(** C4: [canPerformReview] keeps, of the fetched timeline, the events of
    kind "reviewed" whose actor type is "Bot".  When the timeline has no
    such event it returns [true]; when the last such event is less than 24
    hours old it throws the "Only one review per day is allowed" error;
    when the last such event is 24 hours old or older it returns [true].
    In each case the timeline request is the only request sent. *)
Theorem canPerformReview_throttle
    (Date_getTime : string -> number) (context : Context) (w : world)
    (timeline : list timeline_event) (tr : list call) :
  listEvents_response context w = Resolved timeline ->
  let after := (tr ++ [listEvents_call context])%list in
  (forall ev, In ev (bot_reviews timeline) <-> In ev timeline /\ BotReview ev) /\
  (Forall (fun ev => ~ BotReview ev) timeline ->
   canPerformReview Date_getTime context w tr = (Returned true, after)) /\
  (forall pre ev post t,
      timeline = (pre ++ ev :: post)%list ->
      BotReview ev ->
      Forall (fun e => ~ BotReview e) post ->
      Date_getTime (created_at ev) = Fin t ->
      ((inject_Z (now w) - t < 86400000)%Q ->
       canPerformReview Date_getTime context w tr =
       (Thrown only_one_review_per_day, after)) /\
      ((86400000 <= inject_Z (now w) - t)%Q ->
       canPerformReview Date_getTime context w tr = (Returned true, after))).
Proof.
  intros Hfetched after. split; [| split].
  - intros ev. rewrite bot_reviews_filter, List.filter_In, is_bot_review_spec.
    reflexivity.
  - apply canPerformReview_no_bot_review. exact Hfetched.
  - intros pre ev post t Htl Hev Hpost Ht.
    rewrite (canPerformReview_last_bot_review Date_getTime context w timeline
               Hfetched tr pre ev post Htl Hev Hpost), Ht.
    split; intros Hage.
    + apply age_under_one_day in Hage. rewrite Hage. reflexivity.
    + apply age_one_day_or_more in Hage. rewrite Hage. reflexivity.
Qed.

Lemma canPerformReview_throttle_witness :
  let ctx := example_context example_pull_request in
  let q := issues_listEvents "ubiquity" "test-repo" (Num.of_Z 3) in
  let recent := bot_review "2024-01-01T12:00:00Z" in
  let old := bot_review "2024-01-01T00:00:00Z" in
  canPerformReview iso8601_getTime ctx
    (example_world [human_comment; human_review] (Resolved []) [] "") [] =
    (Returned true, [q]) /\
  canPerformReview iso8601_getTime ctx
    (example_world [old; recent; human_review] (Resolved []) [] "") [] =
    (Thrown only_one_review_per_day, [q]) /\
  canPerformReview iso8601_getTime ctx
    (example_world [recent; old; human_comment] (Resolved []) [] "") [] =
    (Returned true, [q]).
Proof.
  intros ctx q recent old.
  assert (Hnot_bot : forall e, actor_type e = "User" -> ~ BotReview e).
  { intros e He [_ Hb]. rewrite He in Hb. discriminate. }
  split; [| split].
  - apply (proj1 (proj2 (canPerformReview_throttle iso8601_getTime ctx
             (example_world [human_comment; human_review] (Resolved []) [] "")
             [human_comment; human_review] [] eq_refl))).
    repeat constructor; apply Hnot_bot; reflexivity.
  - apply (proj1 (proj2 (proj2 (canPerformReview_throttle iso8601_getTime ctx
             (example_world [old; recent; human_review] (Resolved []) [] "")
             [old; recent; human_review] [] eq_refl))
             [old] recent [human_review] (inject_Z 1704110400000)
             eq_refl (conj eq_refl eq_refl)
             ltac:(repeat constructor; apply Hnot_bot; reflexivity)
             eq_refl)).
    reflexivity.
  - apply (proj2 (proj2 (proj2 (canPerformReview_throttle iso8601_getTime ctx
             (example_world [recent; old; human_comment] (Resolved []) [] "")
             [recent; old; human_comment] [] eq_refl))
             [recent] old [human_comment] (inject_Z 1704067200000)
             eq_refl (conj eq_refl eq_refl)
             ltac:(repeat constructor; apply Hnot_bot; reflexivity)
             eq_refl)).
    unfold Qle. simpl. lia.
Defined.

(** ** Precheck *)

Section Precheck.

Variable StringToNumber : string -> number.
Variable ObjectToNumber : jsval -> number.
Variable Date_getTime : string -> number.
Variable parseLooseJson : string -> outcome jsval.
Variable context : Context.
Variable w : world.

#[local] Abbreviation precheck :=
  (performPullPrecheck StringToNumber ObjectToNumber Date_getTime
     parseLooseJson context w).
#[local] Abbreviation handle :=
  (_handleCodeReview StringToNumber ObjectToNumber parseLooseJson context w).
#[local] Abbreviation pr := (payload_pull_request (ctx_payload context)).

Lemma precheck_draft (tr : list call) :
  draft pr = true ->
  precheck tr =
  (Returned {| status := 200;
               reason := "PR is in draft mode, no action required" |}, tr).
Proof. intros H. unfold performPullPrecheck. rewrite H. reflexivity. Qed.

Lemma precheck_closed (tr : list call) :
  draft pr = false ->
  state pr = "closed" ->
  precheck tr =
  (Returned {| status := 200;
               reason := "PR is closed, no action required" |}, tr).
Proof.
  intros Hd Hs. unfold performPullPrecheck. rewrite Hd, Hs. reflexivity.
Qed.

(** Past the two short-circuits the precheck is the throttle followed by
    the review. *)
Lemma precheck_open (tr : list call) :
  draft pr = false ->
  state pr <> "closed" ->
  precheck tr =
  match canPerformReview Date_getTime context w tr with
  | (Returned true, tr') => handle tr'
  | (Returned false, tr') =>
      (Returned {| status := 200;
                   reason := "Cannot perform review at this time" |}, tr')
  | (Thrown e, tr') => (Thrown e, tr')
  end.
Proof.
  intros Hd Hs. unfold performPullPrecheck. rewrite Hd.
  apply String.eqb_neq in Hs. rewrite Hs. unfold bind.
  destruct (canPerformReview Date_getTime context w tr) as [[[|]|e] tr'];
    reflexivity.
Qed.

Lemma canPerformReview_not_false (tr : list call) :
  fst (canPerformReview Date_getTime context w tr) <> Returned false.
Proof.
  unfold canPerformReview, bind, request.
  destruct (listEvents w _ _ _) as [timeline|e]; simpl; [| discriminate].
  destruct (Nat.eqb _ 0); simpl; [discriminate |].
  destruct (_ !! _) as [lastReview|]; simpl; [| discriminate].
  destruct (Num.lt _ _); simpl; discriminate.
Qed.

Lemma handleCodeReview_returns_success (tr tr' : list call) r :
  handle tr = (Returned r, tr') ->
  r = {| status := 200; reason := "Success" |}.
Proof.
  unfold _handleCodeReview, bind, lift.
  destruct (reviewPull _ _ _ _ tr) as [[d|e] tr1]; [| discriminate].
  destruct (parsePullReviewData _ _ _ _) as [v|e]; [| discriminate].
  destruct (if Num.lt _ _ then _ else _) as [[[]|e] tr2]; [| discriminate].
  destruct (submitCodeReview _ _ _ _ _) as [[[]|e] tr3]; [| discriminate].
  unfold ret. intros [= <- _]. reflexivity.
Qed.

End Precheck.

(** C9, as amended: for every pull request with [draft = true],
    [performPullPrecheck] returns status 200 with a reason mentioning draft
    mode; for every pull request that is not a draft and has
    [state = "closed"], it returns status 200 with a reason mentioning
    "closed"; in both cases no request is sent to any collaborator (no
    timeline fetch, no draft conversion, no review submission, no
    completion call): the trace of requests is left as it was. *)
Theorem precheck_short_circuits
    (StringToNumber : string -> number) (ObjectToNumber : jsval -> number)
    (Date_getTime : string -> number)
    (parseLooseJson : string -> outcome jsval)
    (context : Context) (w : world) (tr : list call) :
  let pr := payload_pull_request (ctx_payload context) in
  let precheck :=
    performPullPrecheck StringToNumber ObjectToNumber Date_getTime
      parseLooseJson context w in
  (draft pr = true ->
   exists r, precheck tr = (Returned r, tr) /\ status r = 200%Z /\
             includes (reason r) "draft mode" = true) /\
  (draft pr = false -> state pr = "closed" ->
   exists r, precheck tr = (Returned r, tr) /\ status r = 200%Z /\
             includes (reason r) "closed" = true).
Proof.
  intros pr precheck. split.
  - intros Hd. eexists. split; [apply precheck_draft; exact Hd |].
    split; reflexivity.
  - intros Hd Hs. eexists. split; [apply precheck_closed; assumption |].
    split; reflexivity.
Qed.

Lemma precheck_short_circuits_witness :
  (exists r, example_precheck draft_pull_request quiet_world = (Returned r, [])
             /\ status r = 200%Z
             /\ includes (reason r) "draft mode" = true) /\
  (exists r, example_precheck closed_pull_request quiet_world = (Returned r, [])
             /\ status r = 200%Z
             /\ includes (reason r) "closed" = true).
Proof.
  split.
  - apply (proj1 (precheck_short_circuits decimal_StringToNumber
                    no_ObjectToNumber iso8601_getTime example_parseLooseJson
                    (example_context draft_pull_request) quiet_world [])).
    reflexivity.
  - apply (proj2 (precheck_short_circuits decimal_StringToNumber
                    no_ObjectToNumber iso8601_getTime example_parseLooseJson
                    (example_context closed_pull_request) quiet_world []));
      reflexivity.
Defined.

(** A closed pull request that is also a draft takes the draft
    short-circuit: its reason does not mention "closed". *)
Lemma closed_draft_reason_counterexample :
  state closed_draft_pull_request = "closed" /\
  example_precheck closed_draft_pull_request quiet_world =
    (Returned {| status := 200;
                 reason := "PR is in draft mode, no action required" |}, []) /\
  includes "PR is in draft mode, no action required" "closed" = false /\
  ~ (forall pr : pull_request,
        state pr = "closed" ->
        exists r, example_precheck pr quiet_world = (Returned r, []) /\
                  status r = 200%Z /\
                  includes (reason r) "closed" = true).
Proof.
  split; [reflexivity |]. split; [reflexivity |]. split; [reflexivity |].
  intros H. destruct (H closed_draft_pull_request eq_refl) as (r & Hr & _ & Hc).
  injection Hr as <-. discriminate Hc.
Qed.

Lemma precheck_never_cannot_perform
    (StringToNumber : string -> number) (ObjectToNumber : jsval -> number)
    (Date_getTime : string -> number)
    (parseLooseJson : string -> outcome jsval)
    (context : Context) (w : world) (tr tr' : list call) r :
  performPullPrecheck StringToNumber ObjectToNumber Date_getTime
    parseLooseJson context w tr = (Returned r, tr') ->
  reason r <> cannot_perform_review.
Proof.
  set (pr := payload_pull_request (ctx_payload context)).
  destruct (draft pr) eqn:Hd.
  - rewrite precheck_draft by exact Hd. intros [= <- _]. discriminate.
  - destruct (String.eqb_spec (state pr) "closed") as [Hs | Hs].
    + rewrite precheck_closed by assumption. intros [= <- _]. discriminate.
    + rewrite precheck_open by assumption.
      pose proof (canPerformReview_not_false Date_getTime context w tr) as Hnf.
      destruct (canPerformReview Date_getTime context w tr)
        as [[[|]|e] tr1]; simpl in Hnf.
      * intros H. apply handleCodeReview_returns_success in H. subst r.
        discriminate.
      * congruence.
      * discriminate.
Qed.

(** C10: [canPerformReview] never returns [false]: it returns [true] or
    throws.  Hence [performPullPrecheck] never returns the reason of its
    negated-return branch, "Cannot perform review at this time", and when
    the throttle denies review (the last bot review is less than 24 hours
    old) on a pull request that is neither a draft nor closed, the denial
    leaves [performPullPrecheck] as the thrown "Only one review per day is
    allowed" error. *)
Theorem throttle_denial_only_throws
    (StringToNumber : string -> number) (ObjectToNumber : jsval -> number)
    (Date_getTime : string -> number)
    (parseLooseJson : string -> outcome jsval)
    (context : Context) (w : world) (tr : list call) :
  let pr := payload_pull_request (ctx_payload context) in
  let precheck :=
    performPullPrecheck StringToNumber ObjectToNumber Date_getTime
      parseLooseJson context w in
  (exists tr',
      canPerformReview Date_getTime context w tr = (Returned true, tr') \/
      exists e, canPerformReview Date_getTime context w tr = (Thrown e, tr')) /\
  (forall r tr', precheck tr = (Returned r, tr') ->
                 reason r <> cannot_perform_review) /\
  (forall pre ev post t,
      draft pr = false ->
      state pr <> "closed" ->
      listEvents_response context w = Resolved (pre ++ ev :: post)%list ->
      BotReview ev ->
      Forall (fun e => ~ BotReview e) post ->
      Date_getTime (created_at ev) = Fin t ->
      (inject_Z (now w) - t < 86400000)%Q ->
      precheck tr =
      (Thrown only_one_review_per_day,
       (tr ++ [listEvents_call context])%list)).
Proof.
  intros pr precheck. split; [| split].
  - pose proof (canPerformReview_not_false Date_getTime context w tr) as Hnf.
    destruct (canPerformReview Date_getTime context w tr)
      as [[[|]|e] tr1]; simpl in Hnf; exists tr1.
    + left. reflexivity.
    + congruence.
    + right. exists e. reflexivity.
  - intros r tr'. apply precheck_never_cannot_perform.
  - intros pre ev post t Hd Hs Hfetched Hev Hpost Ht Hage.
    subst precheck. rewrite precheck_open by assumption.
    rewrite (canPerformReview_last_bot_review Date_getTime context w _
               Hfetched tr pre ev post eq_refl Hev Hpost), Ht.
    apply age_under_one_day in Hage. rewrite Hage. reflexivity.
Qed.

Lemma throttle_denial_only_throws_witness :
  example_precheck example_pull_request throttled_world =
  (Thrown only_one_review_per_day,
   [issues_listEvents "ubiquity" "test-repo" (Num.of_Z 3)]).
Proof.
  apply (proj2 (proj2 (throttle_denial_only_throws decimal_StringToNumber
           no_ObjectToNumber iso8601_getTime example_parseLooseJson
           (example_context example_pull_request) throttled_world []))
           [bot_review "2023-12-30T08:00:00Z"; human_review]
           (bot_review "2024-01-01T23:00:00Z") [human_comment]
           (inject_Z 1704150000000)).
  - reflexivity.
  - discriminate.
  - reflexivity.
  - split; reflexivity.
  - repeat constructor. intros [H _]. discriminate H.
  - reflexivity.
  - reflexivity.
Defined.

(** ** The throttled precheck, run *)

(** C1 (the code departs from it): on a pull request that is neither a
    draft nor closed and whose most recent bot review is less than 24 hours
    old, [performPullPrecheck] does not return [{status: 200}] with a
    reason: it throws "Only one review per day is allowed". *)
Theorem precheck_throttled_throws :
  draft example_pull_request = false /\
  state example_pull_request <> "closed" /\
  example_precheck example_pull_request recently_reviewed_world =
    (Thrown (LogReturn "Only one review per day is allowed" None),
     [issues_listEvents "ubiquity" "test-repo" (Num.of_Z 3)]) /\
  (forall r tr,
      example_precheck example_pull_request recently_reviewed_world <>
      (Returned r, tr)).
Proof.
  split; [reflexivity |]. split; [discriminate |].
  assert (H : example_precheck example_pull_request recently_reviewed_world =
              (Thrown (LogReturn "Only one review per day is allowed" None),
               [issues_listEvents "ubiquity" "test-repo" (Num.of_Z 3)]))
    by reflexivity.
  split; [exact H |]. intros r tr. rewrite H. discriminate.
Qed.

(** ** The decision after the verdict *)

Lemma at_half_neither (q : Q) :
  (q == 1 # 2)%Q ->
  Num.lt (Fin q) (Fin (1 # 2)) = false /\ Num.gt (Fin q) (Fin (1 # 2)) = false.
Proof.
  intros Hq. unfold Num.gt, Num.lt. rewrite !Qltb_ge, Hq.
  split; apply Qle_refl.
Qed.

(** C2 (the code departs from it): for every verdict whose confidence is
    exactly 0.5, [_handleCodeReview] sends no draft conversion and submits
    the review with event "REQUEST_CHANGES", not "COMMENT": the review
    request is the only request that follows the completion, so
    "REQUEST_CHANGES" occurs without a draft conversion. *)
Theorem decision_at_half
    (StringToNumber : string -> number) (ObjectToNumber : jsval -> number)
    (parseLooseJson : string -> outcome jsval)
    (context : Context) (w : world) (tr tr1 : list call)
    (d : CompletionsType) (v : PullReviewVerdict) (q : Q) (url : string) :
  let p := ctx_payload context in
  reviewPull StringToNumber ObjectToNumber context w tr = (Returned d, tr1) ->
  parsePullReviewData StringToNumber ObjectToNumber parseLooseJson (answer d)
    = Returned v ->
  confidenceThreshold v = Fin q ->
  (q == 1 # 2)%Q ->
  createReview w (repository_owner_login p) (repository_name p)
    (payload_number p) (reviewComment v) REQUEST_CHANGES = Resolved url ->
  _handleCodeReview StringToNumber ObjectToNumber parseLooseJson context w tr =
  (Returned {| status := 200; reason := "Success" |},
   (tr1 ++ [review_call context (reviewComment v) REQUEST_CHANGES])%list).
Proof.
  intros p Hr Hp Hc Hq Hs. unfold _handleCodeReview, bind, lift.
  rewrite Hr, Hp, Hc.
  destruct (at_half_neither q Hq) as [Hlt Hgt]. rewrite Hlt, Hgt.
  unfold submitCodeReview, try_catch, bind, ret.
  rewrite (request_resolved _ _ url tr1 Hs). reflexivity.
Qed.

Lemma decision_at_half_witness :
  let reviewed :=
    (example_fetched ++
     [example_completion_call
        [no_languages; no_dependencies; no_devDependencies]])%list in
  _handleCodeReview decimal_StringToNumber no_ObjectToNumber
    example_parseLooseJson (example_context example_pull_request)
    undecided_world [] =
  (Returned {| status := 200; reason := "Success" |},
   (reviewed ++
    [pulls_createReview "ubiquity" "test-repo" (Num.of_Z 3) "unsure"
       REQUEST_CHANGES])%list).
Proof.
  intros reviewed.
  apply (decision_at_half decimal_StringToNumber no_ObjectToNumber
           example_parseLooseJson (example_context example_pull_request)
           undecided_world [] reviewed half_completion
           {| confidenceThreshold := Fin (1 # 2); reviewComment := "unsure" |}
           (1 # 2) "https://example.invalid/review").
  - vm_compute. reflexivity.
  - vm_compute. reflexivity.
  - reflexivity.
  - reflexivity.
  - reflexivity.
Defined.

(** The same verdict through the whole precheck. *)
Example decision_undecided :
  example_precheck example_pull_request undecided_world =
  (Returned {| status := 200; reason := "Success" |},
   (example_trace_before_decision ++
    [pulls_createReview "ubiquity" "test-repo" (Num.of_Z 3) "unsure"
       REQUEST_CHANGES])%list).
Proof. vm_compute. reflexivity. Qed.

Section Decision.

Variable StringToNumber : string -> number.
Variable ObjectToNumber : jsval -> number.
Variable parseLooseJson : string -> outcome jsval.
Variable context : Context.
Variable w : world.

#[local] Abbreviation payload_of := (ctx_payload context).

(** The requests that follow a parsed verdict when the collaborators
    answer: a draft conversion iff the confidence is below 0.5, then the
    review, a "COMMENT" iff the confidence is above 0.5. *)
Lemma handleCodeReview_decision (tr tr1 : list call) d v url :
  reviewPull StringToNumber ObjectToNumber context w tr = (Returned d, tr1) ->
  parsePullReviewData StringToNumber ObjectToNumber parseLooseJson (answer d)
    = Returned v ->
  convertPullRequestToDraft w (node_id (payload_pull_request payload_of))
    = Resolved tt ->
  createReview w (repository_owner_login payload_of)
    (repository_name payload_of) (payload_number payload_of)
    (reviewComment v)
    (if Num.gt (confidenceThreshold v) (Fin (1 # 2))
     then COMMENT else REQUEST_CHANGES) = Resolved url ->
  _handleCodeReview StringToNumber ObjectToNumber parseLooseJson context w tr =
  (Returned {| status := 200; reason := "Success" |},
   (tr1 ++
    (if Num.lt (confidenceThreshold v) (Fin (1 # 2))
     then [convert_call context] else []) ++
    [review_call context (reviewComment v)
       (if Num.gt (confidenceThreshold v) (Fin (1 # 2))
        then COMMENT else REQUEST_CHANGES)])%list).
Proof.
  intros Hr Hp Hc Hs. unfold _handleCodeReview, bind, lift.
  rewrite Hr, Hp.
  unfold submitCodeReview, convertPullToDraft, try_catch, bind, ret.
  destruct (Num.lt (confidenceThreshold v) (Fin (1 # 2))).
  - rewrite (request_resolved _ _ tt tr1 Hc).
    rewrite (request_resolved _ _ url _ Hs).
    rewrite <- app_assoc. reflexivity.
  - rewrite (request_resolved _ _ url _ Hs). reflexivity.
Qed.

End Decision.

Example decision_confident :
  example_precheck example_pull_request
    (example_world [] (Resolved [example_edge 1]) [] test_answer) =
  (Returned {| status := 200; reason := "Success" |},
   (example_trace_before_decision ++
    [pulls_createReview "ubiquity" "test-repo" (Num.of_Z 3) "passed"
       COMMENT])%list).
Proof. vm_compute. reflexivity. Qed.

Example decision_doubtful :
  example_precheck example_pull_request
    (example_world [] (Resolved [example_edge 1]) []
       "{confidenceThreshold: 0.2, reviewComment: 'rework'}") =
  (Returned {| status := 200; reason := "Success" |},
   (example_trace_before_decision ++
    [graphql_convertPullRequestToDraft "PR_kwDOexample3";
     pulls_createReview "ubiquity" "test-repo" (Num.of_Z 3) "rework"
       REQUEST_CHANGES])%list).
Proof. vm_compute. reflexivity. Qed.

(** ** Task Linker: the task of a pull request *)

Section TaskLinker.

Variable StringToNumber : string -> number.
Variable ObjectToNumber : jsval -> number.
Variable context : Context.
Variable w : world.

#[local] Abbreviation pr := (payload_pull_request (ctx_payload context)).
#[local] Abbreviation getTask :=
  (getTaskNumberFromPullRequest StringToNumber ObjectToNumber context w).

Variable edges : list edge_node.
Hypothesis pr_number_given : Num.falsy (pull_number pr) = false.
Hypothesis queried : closing_response context w = Resolved edges.

Lemma getTask_unfold (tr : list call) :
  getTask tr =
  bind
    (if Nat.eqb (length edges) 0 then
       match body pr ≫= match_hash_digits with
       | Some (first :: _) =>
           ret (StringToNumber (replace_first "#"%char first))
       | _ =>
           bind (convertPullToDraft w (node_id pr))
                (fun _ => throw must_link_an_issue)
       end
     else if (1 <? length edges)%nat then throw multiple_tasks_linked
     else
       match edges with
       | first :: _ => ret (node_number first)
       | [] => throw (TypeError "Cannot read properties of undefined")
       end)
    (fun issueNumber =>
       if Num.falsy issueNumber
       then throw (logger_error "Task number not found")
       else ret issueNumber)
    (tr ++ [closing_call context])%list.
Proof.
  unfold getTaskNumberFromPullRequest.
  unfold bind at 1. unfold closing_response in queried.
  rewrite (checkIfPrClosesIssues_resolved w _ _ _ edges tr pr_number_given
             queried).
  cbn [issues]. rewrite length_map. unfold bind.
  destruct edges as [|e1 [|e2 es]]; reflexivity.
Qed.

Lemma getTask_single (tr : list call) (node : edge_node) :
  edges = [node] ->
  Num.falsy (node_number node) = false ->
  getTask tr = (Returned (node_number node), (tr ++ [closing_call context])%list).
Proof.
  intros He Hn. rewrite getTask_unfold, He. unfold bind, ret. simpl.
  rewrite Hn. reflexivity.
Qed.

Lemma getTask_body_token (tr : list call) (b first : string) rest :
  edges = [] ->
  body pr = Some b ->
  scan_hash_digits None b = first :: rest ->
  Num.falsy (StringToNumber (replace_first "#"%char first)) = false ->
  getTask tr =
  (Returned (StringToNumber (replace_first "#"%char first)),
   (tr ++ [closing_call context])%list).
Proof.
  intros He Hb Hscan Hn. rewrite getTask_unfold, He, Hb. simpl.
  unfold match_hash_digits. rewrite Hscan. unfold bind, ret.
  rewrite Hn. reflexivity.
Qed.

Lemma getTask_no_link (tr : list call) :
  edges = [] ->
  body pr ≫= match_hash_digits = None ->
  getTask tr =
  (match convertPullRequestToDraft w (node_id pr) with
   | Resolved _ => Thrown must_link_an_issue
   | Rejected e =>
       Thrown (LogReturn "Failed to convert pull request to draft mode: "
                 (Some e))
   end,
   (tr ++ [closing_call context;
           graphql_convertPullRequestToDraft (node_id pr)])%list).
Proof.
  intros He Hb. rewrite getTask_unfold, He, Hb. simpl.
  unfold bind, convertPullToDraft, try_catch, request, throw.
  rewrite <- app_assoc. simpl.
  destruct (convertPullRequestToDraft w (node_id pr)); reflexivity.
Qed.

Lemma getTask_multiple (tr : list call) :
  (1 < length edges)%nat ->
  getTask tr =
  (Thrown multiple_tasks_linked, (tr ++ [closing_call context])%list).
Proof.
  intros Hlen. rewrite getTask_unfold.
  destruct edges as [|e1 [|e2 es]]; simpl in Hlen; try lia. reflexivity.
Qed.

Lemma reviewPull_multiple (tr : list call) :
  (1 < length edges)%nat ->
  reviewPull StringToNumber ObjectToNumber context w tr =
  (Thrown multiple_tasks_linked, (tr ++ [closing_call context])%list).
Proof.
  intros Hlen. unfold reviewPull. unfold bind at 1.
  rewrite (getTask_multiple tr Hlen). reflexivity.
Qed.

End TaskLinker.

(** ** The first [#<digits>] token of a body *)

Lemma append_cons c s t : String c s +:+ t = String c (s +:+ t).
Proof. reflexivity. Qed.

Lemma append_nil_l t : EmptyString +:+ t = t.
Proof. reflexivity. Qed.

Lemma append_assoc s t u : (s +:+ t) +:+ u = s +:+ (t +:+ u).
Proof.
  induction s as [|c s IH]; [reflexivity |].
  rewrite !append_cons, IH. reflexivity.
Qed.

Lemma no_token_suffix a b : no_token (a +:+ b) -> no_token b.
Proof.
  intros H s1 d s2 E. apply (H (a +:+ s1) d s2).
  rewrite E, append_assoc. reflexivity.
Qed.

Lemma no_token_head_digit cur c p :
  cur = Some EmptyString ->
  no_token (hash_prefix cur +:+ String c p) -> is_digit c = false.
Proof.
  intros -> H. apply (H EmptyString c p). reflexivity.
Qed.

Lemma scan_step_digit cur c s :
  is_digit c = true ->
  scan_hash_digits cur (String c s) =
  match cur with
  | Some acc => scan_hash_digits (Some (acc +:+ String c EmptyString)) s
  | None => scan_hash_digits None s
  end.
Proof. intros H. simpl. rewrite H. reflexivity. Qed.

Lemma scan_step_other cur c s :
  is_digit c = false ->
  scan_hash_digits cur (String c s) =
  (flush cur ++
   scan_hash_digits (if is_hash c then Some EmptyString else None) s)%list.
Proof. intros H. simpl. rewrite H. reflexivity. Qed.

Lemma next_state_no_token cur c p :
  no_token (hash_prefix cur +:+ String c p) ->
  no_token
    (hash_prefix (if is_hash c then Some EmptyString else None) +:+ p).
Proof.
  intros H. destruct (is_hash c) eqn:Eh.
  - apply Ascii.eqb_eq in Eh. subst c.
    apply (no_token_suffix (hash_prefix cur)). exact H.
  - apply (no_token_suffix (hash_prefix cur +:+ String c EmptyString)).
    rewrite append_assoc. exact H.
Qed.

Lemma next_state_fresh (c : ascii) :
  (if is_hash c then Some EmptyString else None) = (None : option string) \/
  (if is_hash c then Some EmptyString else None) = Some EmptyString.
Proof. destruct (is_hash c); auto. Qed.

Lemma flush_fresh cur :
  cur = None \/ cur = Some EmptyString -> flush cur = [].
Proof. intros [-> | ->]; reflexivity. Qed.

(** Scanning a stretch without token leaves no match. *)
Lemma scan_no_token b : forall cur,
  cur = None \/ cur = Some EmptyString ->
  no_token (hash_prefix cur +:+ b) ->
  scan_hash_digits cur b = [].
Proof.
  induction b as [|c p IH]; intros cur Hcur Hno.
  - simpl. apply flush_fresh, Hcur.
  - destruct (is_digit c) eqn:Ed.
    + rewrite scan_step_digit by exact Ed.
      destruct Hcur as [-> | Hs].
      * apply IH; [auto |].
        apply (no_token_suffix (String c EmptyString)). exact Hno.
      * rewrite (no_token_head_digit cur c p Hs Hno) in Ed. discriminate.
    + rewrite scan_step_other, (flush_fresh cur Hcur) by exact Ed.
      apply IH; [apply next_state_fresh |].
      apply (next_state_no_token cur). exact Hno.
Qed.

(** Scanning up to the hash sign of the first token. *)
Lemma scan_skip pre : forall cur s,
  cur = None \/ cur = Some EmptyString ->
  no_token (hash_prefix cur +:+ pre) ->
  scan_hash_digits cur (pre +:+ String "#"%char s) =
  scan_hash_digits (Some EmptyString) s.
Proof.
  induction pre as [|c p IH]; intros cur s Hcur Hno.
  - rewrite append_nil_l, scan_step_other, (flush_fresh cur Hcur)
      by reflexivity.
    reflexivity.
  - rewrite append_cons. destruct (is_digit c) eqn:Ed.
    + rewrite scan_step_digit by exact Ed.
      destruct Hcur as [-> | Hs].
      * apply IH; [auto |].
        apply (no_token_suffix (String c EmptyString)). exact Hno.
      * rewrite (no_token_head_digit cur c p Hs Hno) in Ed. discriminate.
    + rewrite scan_step_other, (flush_fresh cur Hcur) by exact Ed.
      apply IH; [apply next_state_fresh |].
      apply (next_state_no_token cur). exact Hno.
Qed.

Lemma scan_digits ds : forall acc rest,
  all_digits ds = true ->
  scan_hash_digits (Some acc) (ds +:+ rest) =
  scan_hash_digits (Some (acc +:+ ds)) rest.
Proof.
  induction ds as [|c ds IH]; intros acc rest Hd.
  - rewrite append_nil_l.
    replace (acc +:+ EmptyString) with acc; [reflexivity |].
    clear. induction acc as [|a acc IH]; [reflexivity |].
    rewrite append_cons, <- IH. reflexivity.
  - simpl in Hd. apply andb_true_iff in Hd as [Hc Hd].
    rewrite append_cons, scan_step_digit by exact Hc.
    rewrite IH by exact Hd. rewrite append_assoc. reflexivity.
Qed.

Lemma scan_token_end ds rest :
  ds <> EmptyString ->
  starts_with_digit rest = false ->
  scan_hash_digits (Some ds) rest =
  String "#"%char ds :: scan_hash_digits None rest.
Proof.
  intros Hne Hr. destruct ds as [|d ds]; [congruence |].
  destruct rest as [|c r]; [reflexivity |].
  simpl in Hr. rewrite !scan_step_other by exact Hr. reflexivity.
Qed.

Lemma scan_first_token b digits :
  first_token b digits ->
  exists later,
    scan_hash_digits None b = String "#"%char digits :: later.
Proof.
  intros (pre & rest & -> & Hpre & Hne & Hd & Hr).
  exists (scan_hash_digits None rest).
  rewrite scan_skip by auto.
  rewrite scan_digits, append_nil_l by exact Hd.
  apply scan_token_end; assumption.
Qed.

Lemma match_first_token_digits b digits :
  first_token b digits ->
  exists later,
    match_hash_digits b = Some (String "#"%char digits :: later) /\
    replace_first "#"%char (String "#"%char digits) = digits.
Proof.
  intros H. destruct (scan_first_token b digits H) as (later & E).
  exists later. unfold match_hash_digits. rewrite E. split; reflexivity.
Qed.

Lemma match_no_token_none b : no_token b -> match_hash_digits b = None.
Proof.
  intros H. unfold match_hash_digits.
  rewrite (scan_no_token b None); auto.
Qed.

Lemma hash_free_no_token s : hash_free s = true -> no_token s.
Proof.
  induction s as [|c s IH]; intros Hf s1 d s2 E.
  - destruct s1; discriminate.
  - simpl in Hf. apply andb_true_iff in Hf as [Hc Hf].
    destruct s1 as [|a s1].
    + rewrite append_nil_l in E. injection E as -> _. discriminate.
    + rewrite append_cons in E. injection E as _ E.
      exact (IH Hf s1 d s2 E).
Qed.

(** C3: [getTaskNumberFromPullRequest] resolves at most one task.  With
    exactly one closing issue reference it returns that issue's number.
    With none it falls back to the first [#<digits>] token of the body and
    returns its number; when the body has no such token it sends the draft
    conversion and then throws the "You need to link an issue" error.
    With more than one closing reference it throws the "Multiple tasks
    linked" error, and so do [reviewPull] and [_handleCodeReview], the
    closing-references query being the only request sent: the completion
    client is not called.  (An issue number is a number other than 0 and
    NaN; the draft conversion is taken to succeed.) *)
Theorem task_linker_resolves_one_task
    (StringToNumber : string -> number) (ObjectToNumber : jsval -> number)
    (parseLooseJson : string -> outcome jsval)
    (context : Context) (w : world) (edges : list edge_node)
    (tr : list call) :
  let pr := payload_pull_request (ctx_payload context) in
  let getTask :=
    getTaskNumberFromPullRequest StringToNumber ObjectToNumber context w in
  let after := (tr ++ [closing_call context])%list in
  Num.falsy (pull_number pr) = false ->
  closing_response context w = Resolved edges ->
  (forall node,
      edges = [node] ->
      Num.falsy (node_number node) = false ->
      getTask tr = (Returned (node_number node), after)) /\
  (forall b digits,
      edges = [] ->
      body pr = Some b ->
      first_token b digits ->
      Num.falsy (StringToNumber digits) = false ->
      getTask tr = (Returned (StringToNumber digits), after)) /\
  (edges = [] ->
   (body pr = None \/ exists b, body pr = Some b /\ no_token b) ->
   (exists e,
       getTask tr =
       (Thrown e,
        (after ++ [graphql_convertPullRequestToDraft (node_id pr)])%list)) /\
   (convertPullRequestToDraft w (node_id pr) = Resolved tt ->
    getTask tr =
    (Thrown must_link_an_issue,
     (after ++ [graphql_convertPullRequestToDraft (node_id pr)])%list))) /\
  ((1 < length edges)%nat ->
   getTask tr = (Thrown multiple_tasks_linked, after) /\
   reviewPull StringToNumber ObjectToNumber context w tr =
     (Thrown multiple_tasks_linked, after) /\
   _handleCodeReview StringToNumber ObjectToNumber parseLooseJson context w
     tr = (Thrown multiple_tasks_linked, after) /\
   is_completion_call (closing_call context) = false).
Proof.
  intros pr getTask after Hpr Hq. split; [| split; [| split]].
  - intros node He Hn.
    exact (getTask_single StringToNumber ObjectToNumber context w edges Hpr Hq
             tr node He Hn).
  - intros b digits He Hb Htok Hn.
    destruct (match_first_token_digits b digits Htok) as (later & Hm & Hrep).
    unfold match_hash_digits in Hm.
    destruct (scan_hash_digits None b) as [|first rest] eqn:Hscan;
      [discriminate |].
    injection Hm as -> <-.
    pose proof (getTask_body_token StringToNumber ObjectToNumber context w
                  edges Hpr Hq tr b _ _ He Hb Hscan) as H.
    rewrite Hrep in H. exact (H Hn).
  - intros He Hbody.
    assert (Hnone : body pr ≫= match_hash_digits = None).
    { destruct Hbody as [-> | (b & -> & Hno)]; [reflexivity |].
      simpl. apply match_no_token_none, Hno. }
    pose proof (getTask_no_link StringToNumber ObjectToNumber context w edges
                  Hpr Hq tr He Hnone) as H.
    subst after. rewrite <- app_assoc. simpl. split.
    + destruct (convertPullRequestToDraft w _) in H; eexists; exact H.
    + intros Hc. fold pr in H. rewrite Hc in H. exact H.
  - intros Hlen. split; [| split; [| split]].
    + exact (getTask_multiple StringToNumber ObjectToNumber context w edges
               Hpr Hq tr Hlen).
    + exact (reviewPull_multiple StringToNumber ObjectToNumber context w edges
               Hpr Hq tr Hlen).
    + unfold _handleCodeReview. unfold bind at 1.
      rewrite (reviewPull_multiple StringToNumber ObjectToNumber context w
                 edges Hpr Hq tr Hlen).
      reflexivity.
    + reflexivity.
Qed.

Lemma task_linker_resolves_one_task_witness :
  let getTask pr edges :=
    getTaskNumberFromPullRequest decimal_StringToNumber no_ObjectToNumber
      (example_context pr) (example_world [] (Resolved edges) [] test_answer)
      [] in
  getTask example_pull_request [example_edge 7] =
    (Returned (Num.of_Z 7), [example_closing_call]) /\
  getTask example_pull_request [] =
    (Returned (Num.of_Z 1), [example_closing_call]) /\
  getTask unlinked_pull_request [] =
    (Thrown must_link_an_issue,
     [example_closing_call;
      graphql_convertPullRequestToDraft "PR_kwDOexample3"]) /\
  getTask example_pull_request [example_edge 7; example_edge 8] =
    (Thrown multiple_tasks_linked, [example_closing_call]).
Proof.
  intros getTask. subst getTask. cbv beta.
  split; [| split; [| split]].
  - apply (proj1 (task_linker_resolves_one_task decimal_StringToNumber
             no_ObjectToNumber example_parseLooseJson
             (example_context example_pull_request)
             (example_world [] (Resolved [example_edge 7]) [] test_answer)
             [example_edge 7] [] eq_refl eq_refl)
             (example_edge 7) eq_refl eq_refl).
  - apply (proj1 (proj2 (task_linker_resolves_one_task decimal_StringToNumber
             no_ObjectToNumber example_parseLooseJson
             (example_context example_pull_request)
             (example_world [] (Resolved []) [] test_answer)
             [] [] eq_refl eq_refl))
             "Resolves #1" "1" eq_refl eq_refl).
    + exists "Resolves ", "". split; [reflexivity |].
      split; [apply hash_free_no_token; reflexivity |].
      split; [discriminate |]. split; reflexivity.
    + reflexivity.
  - pose proof (task_linker_resolves_one_task
                  decimal_StringToNumber no_ObjectToNumber
                  example_parseLooseJson
                  (example_context unlinked_pull_request)
                  (example_world [] (Resolved []) [] test_answer)
                  [] [] eq_refl eq_refl) as H.
    destruct H as [_ [_ [Hnone _]]].
    assert (Hbody : no_token "Small refactoring, no issue")
      by (apply hash_free_no_token; reflexivity).
    destruct (Hnone eq_refl (or_intror (ex_intro _ _ (conj eq_refl Hbody))))
      as [_ Hthrows].
    apply Hthrows. reflexivity.
  - pose proof (task_linker_resolves_one_task
                  decimal_StringToNumber no_ObjectToNumber
                  example_parseLooseJson
                  (example_context example_pull_request)
                  (example_world []
                     (Resolved [example_edge 7; example_edge 8]) []
                     test_answer)
                  [example_edge 7; example_edge 8] [] eq_refl eq_refl) as H.
    destruct H as [_ [_ [_ Hmany]]].
    apply Hmany. simpl. lia.
Defined.

(** ** Ground truths handed to the completion client *)

Lemma passed_ground_truths_app tr1 tr2 :
  passed_ground_truths (tr1 ++ tr2) =
  (passed_ground_truths tr1 ++ passed_ground_truths tr2)%list.
Proof.
  induction tr1 as [|c tr1 IH]; [reflexivity |].
  destruct c; simpl; rewrite IH; reflexivity.
Qed.

Lemma no_completion_call_passed tr :
  no_completion_call tr -> passed_ground_truths tr = [].
Proof.
  unfold no_completion_call. induction tr as [|c tr IH]; [reflexivity |].
  simpl. rewrite andb_true_iff. intros [Hc Htr].
  destruct c; simpl in Hc |- *; try discriminate; auto.
Qed.

Lemma no_completion_call_no_find tr :
  no_completion_call tr -> existsb is_findGroundTruths tr = false.
Proof.
  unfold no_completion_call. induction tr as [|c tr IH]; [reflexivity |].
  simpl. rewrite andb_true_iff. intros [Hc Htr].
  destruct c; simpl in Hc |- *; try discriminate; auto.
Qed.

Section GroundTruths.

Variable StringToNumber : string -> number.
Variable ObjectToNumber : jsval -> number.
Variable context : Context.
Variable w : world.

#[local] Abbreviation getTask :=
  (getTaskNumberFromPullRequest StringToNumber ObjectToNumber context w).
#[local] Abbreviation review :=
  (reviewPull StringToNumber ObjectToNumber context w).
#[local] Abbreviation completion := (completion_call context w).
#[local] Abbreviation completed := (completion_response context w).

(** The requests of the task linker: none goes to the completion client. *)
Lemma getTask_requests (tr : list call) :
  exists added,
    snd (getTask tr) = (tr ++ added)%list /\ no_completion_call added.
Proof.
  unfold getTaskNumberFromPullRequest, checkIfPrClosesIssues, bind, try_catch,
    convertPullToDraft, try_catch, request, throw, ret.
  destruct (Num.falsy (pull_number _)).
  { exists []. rewrite app_nil_r. split; reflexivity. }
  set (q := graphql_closedByPullRequestsReferences _ _ _).
  destruct (closedByPullRequestsReferences w _ _ _) as [edges|e].
  - destruct edges as [|e1 [|e2 es]]; simpl.
    + destruct (body _ ≫= match_hash_digits) as [[|first rest]|].
      * destruct (convertPullRequestToDraft w _);
          exists [q; graphql_convertPullRequestToDraft
                       (node_id (payload_pull_request (ctx_payload context)))];
          rewrite <- app_assoc; split; reflexivity.
      * destruct (Num.falsy _); exists [q]; split; reflexivity.
      * destruct (convertPullRequestToDraft w _);
          exists [q; graphql_convertPullRequestToDraft
                       (node_id (payload_pull_request (ctx_payload context)))];
          rewrite <- app_assoc; split; reflexivity.
    + destruct (Num.falsy _); exists [q]; split; reflexivity.
    + exists [q]. split; reflexivity.
  - simpl.
    destruct (body _ ≫= match_hash_digits) as [[|first rest]|].
    + destruct (convertPullRequestToDraft w _);
        exists [q; graphql_convertPullRequestToDraft
                     (node_id (payload_pull_request (ctx_payload context)))];
        rewrite <- app_assoc; split; reflexivity.
    + destruct (Num.falsy _); exists [q]; split; reflexivity.
    + destruct (convertPullRequestToDraft w _);
        exists [q; graphql_convertPullRequestToDraft
                     (node_id (payload_pull_request (ctx_payload context)))];
        rewrite <- app_assoc; split; reflexivity.
Qed.

(** [reviewPull] once the task is linked and the issue, the formatted
    context and the repository signals are fetched. *)
Lemma reviewPull_selection (tr tr1 : list call) n issue formatted langs deps :
  getTask tr = (Returned n, tr1) ->
  fetchIssue w n = Resolved (Some issue) ->
  formatSpecAndPull w issue = Resolved formatted ->
  fetchRepoLanguageStats w = Resolved langs ->
  fetchRepoDependencies w = Resolved deps ->
  let collected :=
    _collectGroundTruths langs (dependencies deps) (devDependencies deps) in
  let fetched :=
    (tr1 ++ [call_fetchIssue n; call_formatSpecAndPull issue;
             call_fetchRepoLanguageStats; call_fetchRepoDependencies])%list in
  review tr =
  if Nat.eqb (length collected) 3 then
    (outcome_of (completed formatted collected),
     (fetched ++ [completion formatted collected])%list)
  else
    match findGroundTruths w (default "" (issue_body issue)) with
    | Resolved derived =>
        (outcome_of (completed formatted derived),
         (fetched ++ [call_findGroundTruths (default "" (issue_body issue));
                      completion formatted derived])%list)
    | Rejected e =>
        (Thrown e,
         (fetched ++
          [call_findGroundTruths (default "" (issue_body issue))])%list)
    end.
Proof.
  intros Ht Hi Hf Hl Hd collected fetched.
  unfold reviewPull. unfold bind at 1. rewrite Ht.
  unfold bind at 1. rewrite (request_resolved _ _ _ tr1 Hi).
  unfold bind at 1. rewrite (request_resolved _ _ _ _ Hf).
  unfold bind at 1. unfold Promise_all.
  rewrite (request_resolved _ _ _ _ Hl), (request_resolved _ _ _ _ Hd).
  cbn [fst snd]. fold collected.
  assert (Etr : ((((tr1 ++ [call_fetchIssue n]) ++
                   [call_formatSpecAndPull issue]) ++
                  [call_fetchRepoLanguageStats]) ++
                 [call_fetchRepoDependencies])%list = fetched).
  { subst fetched. rewrite <- !app_assoc. reflexivity. }
  rewrite Etr.
  destruct (Nat.eqb (length collected) 3).
  - unfold request, completion_response, completion_call, outcome_of.
    destruct (createCompletion w _ _ _ _ _); reflexivity.
  - unfold bind, request, completion_response, completion_call, outcome_of.
    destruct (findGroundTruths w _) as [derived|e]; [| reflexivity].
    rewrite <- app_assoc.
    destruct (createCompletion w _ _ _ _ _); reflexivity.
Qed.

(** Whatever the collaborators answer, [reviewPull] sends at most one
    [createCompletion] request, and its ground truths are the selected
    ones. *)
Lemma reviewPull_passes_selected :
  let trace := snd (run review) in
  passed_ground_truths trace = [] \/
  exists n issue langs deps,
    fetchIssue w n = Resolved (Some issue) /\
    fetchRepoLanguageStats w = Resolved langs /\
    fetchRepoDependencies w = Resolved deps /\
    let collected :=
      _collectGroundTruths langs (dependencies deps) (devDependencies deps) in
    (length collected = 3%nat /\
     passed_ground_truths trace = [collected] /\
     existsb is_findGroundTruths trace = false)
    \/
    (length collected <> 3%nat /\
     exists derived,
       findGroundTruths w (default "" (issue_body issue)) = Resolved derived /\
       passed_ground_truths trace = [derived] /\
       In (call_findGroundTruths (default "" (issue_body issue))) trace).
Proof.
  intros trace. subst trace. unfold run.
  destruct (getTask_requests []) as (added & Hadd & Hno).
  rewrite app_nil_l in Hadd.
  destruct (getTask []) as [[n|e] tr1] eqn:Ht; simpl in Hadd; subst tr1.
  2:{ left. unfold reviewPull, bind. rewrite Ht. simpl.
      apply no_completion_call_passed, Hno. }
  destruct (fetchIssue w n) as [[issue|]|e] eqn:Hi.
  2,3: left; unfold reviewPull; unfold bind at 1; rewrite Ht;
       unfold bind, request; rewrite Hi; simpl;
       rewrite passed_ground_truths_app, (no_completion_call_passed _ Hno);
       reflexivity.
  destruct (formatSpecAndPull w issue) as [formatted|e] eqn:Hf.
  2:{ left. unfold reviewPull. unfold bind at 1. rewrite Ht.
      unfold bind, request. rewrite Hi, Hf. simpl.
      rewrite !passed_ground_truths_app, (no_completion_call_passed _ Hno).
      reflexivity. }
  destruct (fetchRepoLanguageStats w) as [langs|e] eqn:Hl.
  2:{ left. unfold reviewPull. unfold bind at 1. rewrite Ht.
      unfold bind, request, Promise_all. rewrite Hi, Hf, Hl. simpl.
      destruct (fetchRepoDependencies w); simpl;
      rewrite !passed_ground_truths_app, (no_completion_call_passed _ Hno);
      reflexivity. }
  destruct (fetchRepoDependencies w) as [deps|e] eqn:Hd.
  2:{ left. unfold reviewPull. unfold bind at 1. rewrite Ht.
      unfold bind, request, Promise_all. rewrite Hi, Hf, Hl, Hd. simpl.
      rewrite !passed_ground_truths_app, (no_completion_call_passed _ Hno).
      reflexivity. }
  rewrite (reviewPull_selection [] added n issue formatted langs deps
             Ht Hi Hf Hl Hd).
  set (collected :=
         _collectGroundTruths langs (dependencies deps) (devDependencies deps)).
  destruct (Nat.eqb (length collected) 3) eqn:E3.
  - right. exists n, issue, langs, deps. split; [exact Hi |].
    split; [reflexivity |]. split; [reflexivity |]. left.
    apply Nat.eqb_eq in E3.
    split; [exact E3 |]. cbn [snd]. split.
    + rewrite !passed_ground_truths_app, (no_completion_call_passed _ Hno).
      reflexivity.
    + rewrite !existsb_app, (no_completion_call_no_find _ Hno). reflexivity.
  - apply Nat.eqb_neq in E3.
    destruct (findGroundTruths w (default "" (issue_body issue)))
      as [derived|e] eqn:Hg.
    + right. exists n, issue, langs, deps. split; [exact Hi |].
      split; [reflexivity |]. split; [reflexivity |].
      right. split; [exact E3 |].
      exists derived. split; [exact Hg |]. cbn [snd]. split.
      * rewrite !passed_ground_truths_app, (no_completion_call_passed _ Hno).
        reflexivity.
      * rewrite !in_app_iff. right. left. reflexivity.
    + left. cbn [snd].
      rewrite !passed_ground_truths_app, (no_completion_call_passed _ Hno).
      reflexivity.
Qed.

End GroundTruths.

(** C6: in every run of [reviewPull] at most one [createCompletion] request
    is sent, and the ground truths it carries come from exactly one of the
    two construction paths: the collector's repository-signal facts when
    the collector returns exactly 3 facts (then no derivation is requested),
    and otherwise the ground truths derived from the task specification by
    [findGroundTruths], the collector's facts being discarded.  Once the
    task is linked and the issue, the formatted context and the repository
    signals are fetched, the request is sent in both cases. *)
Theorem ground_truths_single_path
    (StringToNumber : string -> number) (ObjectToNumber : jsval -> number)
    (context : Context) (w : world) :
  let review := reviewPull StringToNumber ObjectToNumber context w in
  (let trace := snd (run review) in
   passed_ground_truths trace = [] \/
   exists n issue langs deps,
     fetchIssue w n = Resolved (Some issue) /\
     fetchRepoLanguageStats w = Resolved langs /\
     fetchRepoDependencies w = Resolved deps /\
     let collected :=
       _collectGroundTruths langs (dependencies deps) (devDependencies deps) in
     (length collected = 3%nat /\
      passed_ground_truths trace = [collected] /\
      existsb is_findGroundTruths trace = false)
     \/
     (length collected <> 3%nat /\
      exists derived,
        findGroundTruths w (default "" (issue_body issue)) = Resolved derived /\
        passed_ground_truths trace = [derived] /\
        In (call_findGroundTruths (default "" (issue_body issue))) trace)) /\
  (forall tr tr1 n issue formatted langs deps,
      getTaskNumberFromPullRequest StringToNumber ObjectToNumber context w tr
        = (Returned n, tr1) ->
      fetchIssue w n = Resolved (Some issue) ->
      formatSpecAndPull w issue = Resolved formatted ->
      fetchRepoLanguageStats w = Resolved langs ->
      fetchRepoDependencies w = Resolved deps ->
      let collected :=
        _collectGroundTruths langs (dependencies deps) (devDependencies deps) in
      let taskSpecification := default "" (issue_body issue) in
      let fetched :=
        (tr1 ++ [call_fetchIssue n; call_formatSpecAndPull issue;
                 call_fetchRepoLanguageStats;
                 call_fetchRepoDependencies])%list in
      (length collected = 3%nat ->
       review tr =
       (outcome_of (completion_response context w formatted collected),
        (fetched ++ [completion_call context w formatted collected])%list)) /\
      (length collected <> 3%nat ->
       forall derived,
         findGroundTruths w taskSpecification = Resolved derived ->
         review tr =
         (outcome_of (completion_response context w formatted derived),
          (fetched ++ [call_findGroundTruths taskSpecification;
                       completion_call context w formatted derived])%list))).
Proof.
  intros review. split.
  - apply reviewPull_passes_selected.
  - intros tr tr1 n issue formatted langs deps Ht Hi Hf Hl Hd
           collected taskSpecification fetched.
    subst review.
    rewrite (reviewPull_selection StringToNumber ObjectToNumber context w
               tr tr1 n issue formatted langs deps Ht Hi Hf Hl Hd).
    fold collected. fold fetched. fold taskSpecification. split.
    + intros H3. apply Nat.eqb_eq in H3. rewrite H3. reflexivity.
    + intros H3 derived Hg. apply Nat.eqb_neq in H3. rewrite H3, Hg.
      reflexivity.
Qed.

Lemma ground_truths_single_path_witness :
  let review languages :=
    reviewPull decimal_StringToNumber no_ObjectToNumber
      (example_context example_pull_request)
      (example_world [] (Resolved [example_edge 1]) languages test_answer)
      [] in
  review [] =
    (Returned
       (example_completion [no_languages; no_dependencies; no_devDependencies]),
     (example_fetched ++
      [example_completion_call
         [no_languages; no_dependencies; no_devDependencies]])%list) /\
  review typescript_languages =
    (Returned (example_completion ["derived from the task"]),
     (example_fetched ++
      [call_findGroundTruths "spec";
       example_completion_call ["derived from the task"]])%list).
Proof.
  intros review. subst review. cbv beta. split.
  - pose proof (ground_truths_single_path decimal_StringToNumber
                  no_ObjectToNumber (example_context example_pull_request)
                  (example_world [] (Resolved [example_edge 1]) []
                     test_answer)) as [_ H].
    destruct (H [] [example_closing_call] (Num.of_Z 1)
                {| issue_body := Some "spec" |} "spec and diff" []
                {| dependencies := Some ∅; devDependencies := Some ∅ |}
                eq_refl eq_refl eq_refl eq_refl eq_refl) as [H3 _].
    apply H3. reflexivity.
  - pose proof (ground_truths_single_path decimal_StringToNumber
                  no_ObjectToNumber (example_context example_pull_request)
                  (example_world [] (Resolved [example_edge 1])
                     typescript_languages test_answer)) as [_ H].
    destruct (H [] [example_closing_call] (Num.of_Z 1)
                {| issue_body := Some "spec" |} "spec and diff"
                typescript_languages
                {| dependencies := Some ∅; devDependencies := Some ∅ |}
                eq_refl eq_refl eq_refl eq_refl eq_refl) as [_ Hn].
    apply Hn; [| reflexivity]. vm_compute. discriminate.
Defined.

(** * Further properties of the class *)

(** Case analysis on the scrutinee of the innermost conditional of the
    goal. *)
Ltac case_step :=
  match goal with
  | |- context [match ?x with _ => _ end] =>
      lazymatch x with
      | context [match _ with _ => _ end] => fail
      | _ => destruct x eqn:?
      end
  | |- context [if ?x then _ else _] =>
      lazymatch x with
      | context [match _ with _ => _ end] => fail
      | context [if _ then _ else _] => fail
      | _ => destruct x eqn:?
      end
  end.

Ltac unfold_class :=
  unfold run, performPullPrecheck, _handleCodeReview, reviewPull,
    getTaskNumberFromPullRequest, checkIfPrClosesIssues, canPerformReview,
    submitCodeReview, convertPullToDraft, Promise_all, try_catch, bind, lift,
    request, throw, ret.

(** ** Task Linker *)

(** When the task linker returns, the closing-references query is the only
    request it has sent. *)
Lemma getTask_returned_trace
    (StringToNumber : string -> number) (ObjectToNumber : jsval -> number)
    (context : Context) (w : world) (tr tr' : list call) (n : number) :
  getTaskNumberFromPullRequest StringToNumber ObjectToNumber context w tr =
    (Returned n, tr') ->
  tr' = (tr ++ [closing_call context])%list.
Proof.
  unfold closing_call. unfold_class.
  repeat (case_step; cbn [fst snd issues]); intros [= <- <-]; reflexivity.
Qed.

(** X1: a number returned by [getTaskNumberFromPullRequest] is never 0 nor
    NaN, and when the function returns, the closing-references query is the
    only request it has sent: no draft conversion. *)
Theorem getTask_returns_issue_number
    (StringToNumber : string -> number) (ObjectToNumber : jsval -> number)
    (context : Context) (w : world) (tr tr' : list call) (n : number) :
  getTaskNumberFromPullRequest StringToNumber ObjectToNumber context w tr =
    (Returned n, tr') ->
  Num.falsy n = false /\ tr' = (tr ++ [closing_call context])%list.
Proof.
  intros H. split; [| exact (getTask_returned_trace _ _ _ _ _ _ _ H)].
  revert H. unfold_class.
  repeat (case_step; cbn [fst snd issues]); intros [= <- <-]; assumption.
Qed.

Lemma getTask_returns_issue_number_witness :
  Num.falsy (Num.of_Z 7) = false /\
  [example_closing_call] =
  ([] ++ [closing_call (example_context example_pull_request)])%list.
Proof.
  apply (getTask_returns_issue_number decimal_StringToNumber
           no_ObjectToNumber (example_context example_pull_request)
           (example_world [] (Resolved [example_edge 7]) [] test_answer)
           [] [example_closing_call] (Num.of_Z 7)).
  reflexivity.
Defined.

Section BodyFallback.

Variable StringToNumber : string -> number.
Variable ObjectToNumber : jsval -> number.
Variable context : Context.
Variable w : world.

#[local] Abbreviation pr := (payload_pull_request (ctx_payload context)).
#[local] Abbreviation getTask :=
  (getTaskNumberFromPullRequest StringToNumber ObjectToNumber context w).

Hypothesis pr_number_given : Num.falsy (pull_number pr) = false.
Hypothesis unreferenced : no_closing_reference context w.

(** Without closing reference, be it that the query failed, the task comes
    from the body. *)
Lemma getTask_fallback (tr : list call) :
  getTask tr =
  bind
    (match body pr ≫= match_hash_digits with
     | Some (first :: _) =>
         ret (StringToNumber (replace_first "#"%char first))
     | _ =>
         bind (convertPullToDraft w (node_id pr))
              (fun _ => throw must_link_an_issue)
     end)
    (fun issueNumber =>
       if Num.falsy issueNumber
       then throw task_number_not_found
       else ret issueNumber)
    (tr ++ [closing_call context])%list.
Proof.
  unfold getTaskNumberFromPullRequest, checkIfPrClosesIssues.
  rewrite pr_number_given. unfold bind at 1. unfold try_catch, bind at 1.
  unfold closing_call.
  destruct unreferenced as [Hq | [e Hq]]; unfold closing_response in Hq.
  - rewrite (request_resolved _ _ [] tr Hq). reflexivity.
  - rewrite (request_rejected _ _ e tr Hq). reflexivity.
Qed.

Lemma getTask_fallback_token (tr : list call) b digits :
  body pr = Some b ->
  first_token b digits ->
  getTask tr =
  (if Num.falsy (StringToNumber digits)
   then Thrown task_number_not_found
   else Returned (StringToNumber digits),
   (tr ++ [closing_call context])%list).
Proof.
  intros Hb Htok. rewrite getTask_fallback, Hb. simpl.
  destruct (match_first_token_digits b digits Htok) as (later & -> & ->).
  unfold bind, ret, throw.
  destruct (Num.falsy (StringToNumber digits)); reflexivity.
Qed.

Lemma getTask_fallback_no_token (tr : list call) :
  (body pr = None \/ exists b, body pr = Some b /\ no_token b) ->
  getTask tr =
  (match convertPullRequestToDraft w (node_id pr) with
   | Resolved _ => Thrown must_link_an_issue
   | Rejected e => Thrown (failed_to_convert e)
   end,
   (tr ++ [closing_call context;
           graphql_convertPullRequestToDraft (node_id pr)])%list).
Proof.
  intros Hbody. rewrite getTask_fallback.
  assert (Hnone : body pr ≫= match_hash_digits = None).
  { destruct Hbody as [-> | (b & -> & Hno)]; [reflexivity |].
    simpl. apply match_no_token_none, Hno. }
  rewrite Hnone.
  unfold bind, convertPullToDraft, try_catch, request, throw.
  rewrite <- app_assoc. simpl.
  destruct (convertPullRequestToDraft w (node_id pr)); reflexivity.
Qed.

End BodyFallback.

(** X2: when the pull request has no closing reference (or the query
    failed) and the first [#<digits>] token of its body denotes 0, as in
    "#0", [getTaskNumberFromPullRequest] throws "Task number not found";
    the pull request is not converted to draft. *)
Theorem body_token_zero_not_found
    (StringToNumber : string -> number) (ObjectToNumber : jsval -> number)
    (context : Context) (w : world) (tr : list call) (b digits : string) :
  let pr := payload_pull_request (ctx_payload context) in
  Num.falsy (pull_number pr) = false ->
  no_closing_reference context w ->
  body pr = Some b ->
  first_token b digits ->
  Num.falsy (StringToNumber digits) = true ->
  getTaskNumberFromPullRequest StringToNumber ObjectToNumber context w tr =
  (Thrown task_number_not_found, (tr ++ [closing_call context])%list).
Proof.
  intros pr Hpr Hq Hb Htok Hz.
  rewrite (getTask_fallback_token StringToNumber ObjectToNumber context w
             Hpr Hq tr b digits Hb Htok), Hz.
  reflexivity.
Qed.

Lemma body_token_zero_not_found_witness :
  getTaskNumberFromPullRequest decimal_StringToNumber no_ObjectToNumber
    (example_context (pull_request_with_body (Some "Fixes #0 for good")))
    (example_world [] (Resolved []) [] test_answer) [] =
  (Thrown task_number_not_found, [example_closing_call]).
Proof.
  apply (body_token_zero_not_found decimal_StringToNumber no_ObjectToNumber
           (example_context (pull_request_with_body (Some "Fixes #0 for good")))
           (example_world [] (Resolved []) [] test_answer) []
           "Fixes #0 for good" "0").
  - reflexivity.
  - left. reflexivity.
  - reflexivity.
  - exists "Fixes ", " for good". split; [reflexivity |].
    split; [apply hash_free_no_token; reflexivity |].
    split; [discriminate |]. split; reflexivity.
  - reflexivity.
Defined.

(** X3: a failure of the closing-references query is handled as the
    absence of reference.  The task is then the first [#<digits>] token of
    the body; a pull request whose body has none is converted to draft and
    the "You need to link an issue" error is thrown, although the query
    never answered. *)
Theorem failed_query_falls_back_to_body
    (StringToNumber : string -> number) (ObjectToNumber : jsval -> number)
    (context : Context) (w : world) (tr : list call) (e : error) :
  let pr := payload_pull_request (ctx_payload context) in
  let getTask :=
    getTaskNumberFromPullRequest StringToNumber ObjectToNumber context w in
  let after := (tr ++ [closing_call context])%list in
  Num.falsy (pull_number pr) = false ->
  closing_response context w = Rejected e ->
  (forall b digits,
      body pr = Some b ->
      first_token b digits ->
      Num.falsy (StringToNumber digits) = false ->
      getTask tr = (Returned (StringToNumber digits), after)) /\
  ((body pr = None \/ exists b, body pr = Some b /\ no_token b) ->
   convertPullRequestToDraft w (node_id pr) = Resolved tt ->
   getTask tr =
   (Thrown must_link_an_issue,
    (after ++ [graphql_convertPullRequestToDraft (node_id pr)])%list)).
Proof.
  intros pr getTask after Hpr Hq.
  assert (Hno : no_closing_reference context w) by (right; eauto).
  split.
  - intros b digits Hb Htok Hn. subst getTask.
    rewrite (getTask_fallback_token StringToNumber ObjectToNumber context w
               Hpr Hno tr b digits Hb Htok), Hn.
    reflexivity.
  - intros Hbody Hc. subst getTask after.
    rewrite (getTask_fallback_no_token StringToNumber ObjectToNumber context w
               Hpr Hno tr Hbody).
    fold pr. rewrite Hc, <- app_assoc. reflexivity.
Qed.

Lemma failed_query_falls_back_to_body_witness :
  let getTask b :=
    getTaskNumberFromPullRequest decimal_StringToNumber no_ObjectToNumber
      (example_context (pull_request_with_body b))
      (example_world [] (Rejected bad_gateway) [] test_answer) [] in
  getTask (Some "Resolves #12.") =
    (Returned (Num.of_Z 12), [example_closing_call]) /\
  getTask None =
    (Thrown must_link_an_issue,
     [example_closing_call;
      graphql_convertPullRequestToDraft "PR_kwDOexample3"]).
Proof.
  intros getTask. subst getTask. cbv beta. split.
  - pose proof (failed_query_falls_back_to_body decimal_StringToNumber
                  no_ObjectToNumber
                  (example_context
                     (pull_request_with_body (Some "Resolves #12.")))
                  (example_world [] (Rejected bad_gateway) [] test_answer)
                  [] bad_gateway eq_refl eq_refl) as [H _].
    apply (H "Resolves #12." "12"); [reflexivity | | reflexivity].
    exists "Resolves ", ".". split; [reflexivity |].
    split; [apply hash_free_no_token; reflexivity |].
    split; [discriminate |]. split; reflexivity.
  - pose proof (failed_query_falls_back_to_body decimal_StringToNumber
                  no_ObjectToNumber
                  (example_context (pull_request_with_body None))
                  (example_world [] (Rejected bad_gateway) [] test_answer)
                  [] bad_gateway eq_refl eq_refl) as [_ H].
    apply H; [left |]; reflexivity.
Defined.

(** ** Review pipeline *)

(** X4: when the number of the pull request is 0 (or NaN), the plain
    [Error] of [checkIfPrClosesIssues] leaves
    [getTaskNumberFromPullRequest], [reviewPull] and [_handleCodeReview]
    unwrapped, and none of them sends a request. *)
Theorem missing_pr_number_stops_review
    (StringToNumber : string -> number) (ObjectToNumber : jsval -> number)
    (parseLooseJson : string -> outcome jsval)
    (context : Context) (w : world) (tr : list call) :
  Num.falsy (pull_number (payload_pull_request (ctx_payload context))) = true ->
  getTaskNumberFromPullRequest StringToNumber ObjectToNumber context w tr =
    (Thrown pr_number_required, tr) /\
  reviewPull StringToNumber ObjectToNumber context w tr =
    (Thrown pr_number_required, tr) /\
  _handleCodeReview StringToNumber ObjectToNumber parseLooseJson context w tr =
    (Thrown pr_number_required, tr).
Proof.
  intros Hpr.
  assert (Ht : getTaskNumberFromPullRequest StringToNumber ObjectToNumber
                 context w tr = (Thrown pr_number_required, tr)).
  { unfold getTaskNumberFromPullRequest, checkIfPrClosesIssues, bind.
    rewrite Hpr. reflexivity. }
  assert (Hr : reviewPull StringToNumber ObjectToNumber context w tr =
               (Thrown pr_number_required, tr)).
  { unfold reviewPull. unfold bind at 1. rewrite Ht. reflexivity. }
  split; [exact Ht |]. split; [exact Hr |].
  unfold _handleCodeReview. unfold bind at 1. rewrite Hr. reflexivity.
Qed.

Lemma missing_pr_number_stops_review_witness :
  _handleCodeReview decimal_StringToNumber no_ObjectToNumber
    example_parseLooseJson (example_context unnumbered_pull_request)
    quiet_world [] =
  (Thrown pr_number_required, []).
Proof.
  apply (missing_pr_number_stops_review decimal_StringToNumber
           no_ObjectToNumber example_parseLooseJson
           (example_context unnumbered_pull_request) quiet_world []).
  reflexivity.
Defined.

Section AfterTask.

Variable StringToNumber : string -> number.
Variable ObjectToNumber : jsval -> number.
Variable context : Context.
Variable w : world.
Variable tr tr1 : list call.
Variable n : number.

#[local] Abbreviation review :=
  (reviewPull StringToNumber ObjectToNumber context w).

Hypothesis linked :
  getTaskNumberFromPullRequest StringToNumber ObjectToNumber context w tr =
  (Returned n, tr1).

Lemma reviewPull_issue_missing :
  fetchIssue w n = Resolved None ->
  review tr = (Thrown error_fetching_issue, (tr1 ++ [call_fetchIssue n])%list).
Proof.
  intros Hi. unfold reviewPull. unfold bind at 1. rewrite linked.
  unfold bind at 1. rewrite (request_resolved _ _ _ tr1 Hi). reflexivity.
Qed.

Lemma reviewPull_issue_rejected e :
  fetchIssue w n = Rejected e ->
  review tr = (Thrown e, (tr1 ++ [call_fetchIssue n])%list).
Proof.
  intros Hi. unfold reviewPull. unfold bind at 1. rewrite linked.
  unfold bind at 1. rewrite (request_rejected _ _ e tr1 Hi). reflexivity.
Qed.

Lemma reviewPull_signals (i : issue) formatted :
  fetchIssue w n = Resolved (Some i) ->
  formatSpecAndPull w i = Resolved formatted ->
  (forall e deps,
      fetchRepoLanguageStats w = Rejected e ->
      fetchRepoDependencies w = Resolved deps ->
      review tr = (Thrown e, (tr1 ++ fetch_calls n i)%list)) /\
  (forall langs e,
      fetchRepoLanguageStats w = Resolved langs ->
      fetchRepoDependencies w = Rejected e ->
      review tr = (Thrown e, (tr1 ++ fetch_calls n i)%list)) /\
  (forall e1 e2,
      fetchRepoLanguageStats w = Rejected e1 ->
      fetchRepoDependencies w = Rejected e2 ->
      exists e, review tr = (Thrown e, (tr1 ++ fetch_calls n i)%list)).
Proof.
  intros Hi Hf.
  assert (Hstart :
    review tr =
    bind (Promise_all
            (request call_fetchRepoLanguageStats (fetchRepoLanguageStats w))
            (request call_fetchRepoDependencies (fetchRepoDependencies w)))
         (fun fetchedSignals =>
            let groundTruths :=
              _collectGroundTruths (fst fetchedSignals)
                (dependencies (snd fetchedSignals))
                (devDependencies (snd fetchedSignals)) in
            if Nat.eqb (length groundTruths) 3 then
              request
                (completion_call context w formatted groundTruths)
                (completion_response context w formatted groundTruths)
            else
              bind (request
                      (call_findGroundTruths (default "" (issue_body i)))
                      (findGroundTruths w (default "" (issue_body i))))
                   (fun groundTruths =>
                      request
                        (completion_call context w formatted groundTruths)
                        (completion_response context w formatted
                           groundTruths)))
         ((tr1 ++ [call_fetchIssue n]) ++ [call_formatSpecAndPull i])%list).
  { unfold reviewPull. unfold bind at 1. rewrite linked.
    unfold bind at 1. rewrite (request_resolved _ _ _ tr1 Hi).
    unfold bind at 1. rewrite (request_resolved _ _ _ _ Hf). reflexivity. }
  split; [| split].
  - intros e deps Hl Hd. rewrite Hstart. unfold bind, Promise_all, request.
    rewrite Hl, Hd. unfold fetch_calls. rewrite <- !app_assoc. reflexivity.
  - intros langs e Hl Hd. rewrite Hstart. unfold bind, Promise_all, request.
    rewrite Hl, Hd. unfold fetch_calls. rewrite <- !app_assoc. reflexivity.
  - intros e1 e2 Hl Hd. exists e1. rewrite Hstart.
    unfold bind, Promise_all, request.
    rewrite Hl, Hd. unfold fetch_calls. rewrite <- !app_assoc. reflexivity.
Qed.

End AfterTask.

(** X5: when the linked issue cannot be fetched, [reviewPull] stops after
    the [fetchIssue] request: an issue that does not exist ([null]) gives
    the "Error fetching issue, Aborting" error, a failed fetch gives its own
    error unwrapped; in both cases no context is formatted, no repository
    signal is fetched and the completion client is not called. *)
Theorem missing_issue_stops_review
    (StringToNumber : string -> number) (ObjectToNumber : jsval -> number)
    (context : Context) (w : world) (tr tr1 : list call) (n : number) :
  getTaskNumberFromPullRequest StringToNumber ObjectToNumber context w tr =
    (Returned n, tr1) ->
  (fetchIssue w n = Resolved None ->
   reviewPull StringToNumber ObjectToNumber context w tr =
   (Thrown error_fetching_issue, (tr1 ++ [call_fetchIssue n])%list)) /\
  (forall e,
      fetchIssue w n = Rejected e ->
      reviewPull StringToNumber ObjectToNumber context w tr =
      (Thrown e, (tr1 ++ [call_fetchIssue n])%list)).
Proof.
  intros Ht. split.
  - apply reviewPull_issue_missing, Ht.
  - intros e. apply reviewPull_issue_rejected, Ht.
Qed.

Lemma missing_issue_stops_review_witness :
  let review fetched :=
    reviewPull decimal_StringToNumber no_ObjectToNumber
      (example_context example_pull_request) (issue_world fetched) [] in
  review (Resolved None) =
    (Thrown error_fetching_issue,
     [example_closing_call; call_fetchIssue (Num.of_Z 1)]) /\
  review (Rejected bad_gateway) =
    (Thrown bad_gateway,
     [example_closing_call; call_fetchIssue (Num.of_Z 1)]).
Proof.
  intros review. subst review. cbv beta. split.
  - apply (proj1 (missing_issue_stops_review decimal_StringToNumber
             no_ObjectToNumber (example_context example_pull_request)
             (issue_world (Resolved None))
             [] [example_closing_call] (Num.of_Z 1) eq_refl)).
    reflexivity.
  - apply (proj2 (missing_issue_stops_review decimal_StringToNumber
             no_ObjectToNumber (example_context example_pull_request)
             (issue_world (Rejected bad_gateway))
             [] [example_closing_call] (Num.of_Z 1) eq_refl)).
    reflexivity.
Defined.

(** X6: the two repository fetches are requested together: when the
    language statistics cannot be fetched the dependencies have been
    requested all the same.  When one of the two fetches fails [reviewPull]
    throws that failure unwrapped, when both fail it throws; in each case
    no ground truths are derived and the completion client is not
    called. *)
Theorem repository_fetches_are_joined
    (StringToNumber : string -> number) (ObjectToNumber : jsval -> number)
    (context : Context) (w : world) (tr tr1 : list call) (n : number)
    (i : issue) (formatted : string) :
  getTaskNumberFromPullRequest StringToNumber ObjectToNumber context w tr =
    (Returned n, tr1) ->
  fetchIssue w n = Resolved (Some i) ->
  formatSpecAndPull w i = Resolved formatted ->
  let joined :=
    (tr1 ++ [call_fetchIssue n; call_formatSpecAndPull i;
             call_fetchRepoLanguageStats; call_fetchRepoDependencies])%list in
  (forall e deps,
      fetchRepoLanguageStats w = Rejected e ->
      fetchRepoDependencies w = Resolved deps ->
      reviewPull StringToNumber ObjectToNumber context w tr =
      (Thrown e, joined)) /\
  (forall langs e,
      fetchRepoLanguageStats w = Resolved langs ->
      fetchRepoDependencies w = Rejected e ->
      reviewPull StringToNumber ObjectToNumber context w tr =
      (Thrown e, joined)) /\
  (forall e1 e2,
      fetchRepoLanguageStats w = Rejected e1 ->
      fetchRepoDependencies w = Rejected e2 ->
      exists e,
        reviewPull StringToNumber ObjectToNumber context w tr =
        (Thrown e, joined)).
Proof.
  intros Ht Hi Hf joined.
  exact (reviewPull_signals StringToNumber ObjectToNumber context w tr tr1 n
           Ht i formatted Hi Hf).
Qed.

Lemma repository_fetches_are_joined_witness :
  let review languages deps :=
    reviewPull decimal_StringToNumber no_ObjectToNumber
      (example_context example_pull_request) (signals_world languages deps)
      [] in
  review (Rejected bad_gateway) (Resolved empty_dependencies) =
    (Thrown bad_gateway, example_fetched) /\
  review (Resolved typescript_languages) (Rejected bad_gateway) =
    (Thrown bad_gateway, example_fetched) /\
  (exists e,
      review (Rejected bad_gateway) (Rejected (Rejection "Not found")) =
      (Thrown e, example_fetched)).
Proof.
  intros review. subst review. cbv beta. split; [| split].
  - pose proof (repository_fetches_are_joined decimal_StringToNumber
                  no_ObjectToNumber (example_context example_pull_request)
                  (signals_world (Rejected bad_gateway)
                     (Resolved empty_dependencies))
                  [] [example_closing_call] (Num.of_Z 1) example_issue
                  "spec and diff" eq_refl eq_refl eq_refl) as [H _].
    apply (H bad_gateway empty_dependencies); reflexivity.
  - pose proof (repository_fetches_are_joined decimal_StringToNumber
                  no_ObjectToNumber (example_context example_pull_request)
                  (signals_world (Resolved typescript_languages)
                     (Rejected bad_gateway))
                  [] [example_closing_call] (Num.of_Z 1) example_issue
                  "spec and diff" eq_refl eq_refl eq_refl) as [_ [H _]].
    apply (H typescript_languages bad_gateway); reflexivity.
  - pose proof (repository_fetches_are_joined decimal_StringToNumber
                  no_ObjectToNumber (example_context example_pull_request)
                  (signals_world (Rejected bad_gateway)
                     (Rejected (Rejection "Not found")))
                  [] [example_closing_call] (Num.of_Z 1) example_issue
                  "spec and diff" eq_refl eq_refl eq_refl) as [_ [_ H]].
    apply (H bad_gateway (Rejection "Not found")); reflexivity.
Defined.

(** ** Ground truths *)

(** X7: the collector returns at most 3 facts, and exactly 3 iff the
    repository is signal-empty on all three axes: no language, a
    dependencies mapping that is present and empty, a devDependencies
    mapping that is present and empty.  In particular a repository whose
    dependencies mapping is absent never yields 3 facts. *)
Theorem collectGroundTruths_three_facts
    (languages : list (string * number))
    (deps devDeps : option (gmap string string)) :
  let facts := _collectGroundTruths languages deps devDeps in
  (length facts <= 3)%nat /\
  (length facts = 3%nat <->
   languages = [] /\ present_and_empty deps /\ present_and_empty devDeps) /\
  length (_collectGroundTruths languages None devDeps) <> 3%nat.
Proof.
  intros facts. subst facts. rewrite !collectGroundTruths_unfold.
  rewrite !present_and_empty_dec.
  assert (Hl : Nat.eqb (length languages) 0 = true <-> languages = []).
  { rewrite Nat.eqb_eq. destruct languages; simpl; split; congruence. }
  destruct (Nat.eqb (length languages) 0) eqn:El;
    destruct deps as [m1|]; try destruct (Nat.eqb (size m1) 0) eqn:E1;
    destruct devDeps as [m2|]; try destruct (Nat.eqb (size m2) 0) eqn:E2;
    simpl; (split; [lia |]); (split; [| lia]);
    intuition (try discriminate; try congruence; try lia; auto).
Qed.

(** X8: a run of [reviewPull] that returns has sent, in this order, the
    closing-references query, the issue fetch, the formatting request, the
    two repository fetches, at most one ground-truth derivation and, last,
    one completion request, whose answer it returns; it has sent no draft
    conversion and no review. *)
Theorem reviewPull_success_trace
    (StringToNumber : string -> number) (ObjectToNumber : jsval -> number)
    (context : Context) (w : world) (tr tr' : list call)
    (d : CompletionsType) :
  reviewPull StringToNumber ObjectToNumber context w tr = (Returned d, tr') ->
  exists n i formatted gts derivation,
    fetchIssue w n = Resolved (Some i) /\
    formatSpecAndPull w i = Resolved formatted /\
    completion_response context w formatted gts = Resolved d /\
    (derivation = [] \/
     derivation = [call_findGroundTruths (default "" (issue_body i))]) /\
    tr' = (tr ++ [closing_call context] ++ fetch_calls n i ++ derivation ++
           [completion_call context w formatted gts])%list.
Proof.
  intros H.
  destruct (getTaskNumberFromPullRequest StringToNumber ObjectToNumber
              context w tr) as [[n|e] tr1] eqn:Ht.
  2:{ unfold reviewPull in H. unfold bind at 1 in H. rewrite Ht in H.
      discriminate. }
  pose proof (getTask_returned_trace StringToNumber ObjectToNumber context w
                tr tr1 n Ht) as Etr.
  subst tr1.
  destruct (fetchIssue w n) as [[i|]|e] eqn:Hi.
  2:{ rewrite (reviewPull_issue_missing StringToNumber ObjectToNumber context
                 w tr _ n Ht Hi) in H. discriminate. }
  2:{ rewrite (reviewPull_issue_rejected StringToNumber ObjectToNumber context
                 w tr _ n Ht e Hi) in H. discriminate. }
  destruct (formatSpecAndPull w i) as [formatted|e] eqn:Hf.
  2:{ unfold reviewPull in H. unfold bind at 1 in H. rewrite Ht in H.
      unfold bind, request in H. rewrite Hi, Hf in H. discriminate. }
  destruct (fetchRepoLanguageStats w) as [langs|e1] eqn:Hl;
    destruct (fetchRepoDependencies w) as [deps|e2] eqn:Hd.
  2-4: unfold reviewPull in H; unfold bind at 1 in H; rewrite Ht in H;
       unfold bind, request, Promise_all in H; rewrite Hi, Hf, Hl, Hd in H;
       discriminate.
  rewrite (reviewPull_selection StringToNumber ObjectToNumber context w
             tr _ n i formatted langs deps Ht Hi Hf Hl Hd) in H.
  fold (fetch_calls n i) in H.
  destruct (Nat.eqb _ 3).
  - destruct (completion_response context w formatted _) as [d'|e] eqn:Hc;
      simpl in H; [| discriminate].
    injection H as <- <-.
    eexists n, i, formatted, _, []. repeat split; eauto.
    rewrite <- !app_assoc. reflexivity.
  - destruct (findGroundTruths w _) as [derived|e] eqn:Hg; [| discriminate].
    destruct (completion_response context w formatted derived) as [d'|e]
      eqn:Hc; simpl in H; [| discriminate].
    injection H as <- <-.
    eexists n, i, formatted, derived, [_]. repeat split; eauto.
    rewrite <- !app_assoc. reflexivity.
Qed.

Lemma reviewPull_success_trace_witness :
  exists n i formatted gts derivation,
    fetchIssue (signals_world (Resolved typescript_languages)
                  (Resolved empty_dependencies)) n = Resolved (Some i) /\
    formatSpecAndPull (signals_world (Resolved typescript_languages)
                         (Resolved empty_dependencies)) i =
      Resolved formatted /\
    completion_response (example_context example_pull_request)
      (signals_world (Resolved typescript_languages)
         (Resolved empty_dependencies)) formatted gts =
      Resolved (example_completion ["derived from the task"]) /\
    (derivation = [] \/
     derivation = [call_findGroundTruths (default "" (issue_body i))]) /\
    (example_fetched ++
     [call_findGroundTruths "spec";
      example_completion_call ["derived from the task"]])%list =
    ([] ++ [closing_call (example_context example_pull_request)] ++
     fetch_calls n i ++ derivation ++
     [completion_call (example_context example_pull_request)
        (signals_world (Resolved typescript_languages)
           (Resolved empty_dependencies)) formatted gts])%list.
Proof.
  apply (reviewPull_success_trace decimal_StringToNumber no_ObjectToNumber
           (example_context example_pull_request)
           (signals_world (Resolved typescript_languages)
              (Resolved empty_dependencies)) []).
  vm_compute. reflexivity.
Defined.

(** ** After the completion *)

Section AfterCompletion.

Variable StringToNumber : string -> number.
Variable ObjectToNumber : jsval -> number.
Variable parseLooseJson : string -> outcome jsval.
Variable context : Context.
Variable w : world.
Variable tr tr1 : list call.
Variable d : CompletionsType.

#[local] Abbreviation handle :=
  (_handleCodeReview StringToNumber ObjectToNumber parseLooseJson context w).
#[local] Abbreviation parse :=
  (parsePullReviewData StringToNumber ObjectToNumber parseLooseJson).
#[local] Abbreviation node :=
  (node_id (payload_pull_request (ctx_payload context))).

Hypothesis reviewed :
  reviewPull StringToNumber ObjectToNumber context w tr = (Returned d, tr1).

Lemma handle_unparsed e :
  parse (answer d) = Thrown e -> handle tr = (Thrown e, tr1).
Proof.
  intros Hp. unfold _handleCodeReview, bind, lift. rewrite reviewed, Hp.
  reflexivity.
Qed.

Lemma handle_conversion_rejected v e :
  parse (answer d) = Returned v ->
  Num.lt (confidenceThreshold v) (Fin (1 # 2)) = true ->
  convertPullRequestToDraft w node = Rejected e ->
  handle tr =
  (Thrown (failed_to_convert e), (tr1 ++ [convert_call context])%list).
Proof.
  intros Hp Hlt Hc. unfold _handleCodeReview, bind, lift.
  rewrite reviewed, Hp, Hlt.
  unfold convertPullToDraft, try_catch.
  rewrite (request_rejected _ _ e tr1 Hc). reflexivity.
Qed.

Lemma handle_submission v :
  parse (answer d) = Returned v ->
  (Num.lt (confidenceThreshold v) (Fin (1 # 2)) = true ->
   convertPullRequestToDraft w node = Resolved tt) ->
  handle tr =
  (match createReview w (repository_owner_login (ctx_payload context))
           (repository_name (ctx_payload context))
           (payload_number (ctx_payload context))
           (reviewComment v) (event_of v) with
   | Resolved _ => Returned {| status := 200; reason := "Success" |}
   | Rejected e => Thrown (failed_to_submit e)
   end,
   (tr1 ++ conversion_of context v ++
    [review_call context (reviewComment v) (event_of v)])%list).
Proof.
  intros Hp Hc. unfold _handleCodeReview, bind, lift.
  rewrite reviewed, Hp.
  unfold submitCodeReview, convertPullToDraft, try_catch, bind, ret,
    conversion_of, event_of, review_call.
  destruct (Num.lt (confidenceThreshold v) (Fin (1 # 2))).
  - rewrite (request_resolved _ _ tt tr1 (Hc eq_refl)). unfold request.
    rewrite <- app_assoc.
    destruct (createReview w _ _ _ _ _); reflexivity.
  - unfold request. destruct (createReview w _ _ _ _ _); reflexivity.
Qed.

End AfterCompletion.

(** X9: when the completion's answer does not parse into a verdict,
    [_handleCodeReview] throws the "Couldn't parse JSON output; Aborting"
    error and sends nothing after the completion request: no draft
    conversion, no review. *)
Theorem unparsed_answer_has_no_effect
    (StringToNumber : string -> number) (ObjectToNumber : jsval -> number)
    (parseLooseJson : string -> outcome jsval)
    (context : Context) (w : world) (tr tr1 : list call)
    (d : CompletionsType) (e : error) :
  reviewPull StringToNumber ObjectToNumber context w tr = (Returned d, tr1) ->
  parsePullReviewData StringToNumber ObjectToNumber parseLooseJson (answer d)
    = Thrown e ->
  _handleCodeReview StringToNumber ObjectToNumber parseLooseJson context w tr
    = (Thrown e, tr1) /\
  exists cause, e = could_not_parse cause.
Proof.
  intros Hr Hp. split.
  - exact (handle_unparsed StringToNumber ObjectToNumber parseLooseJson
             context w tr tr1 d Hr e Hp).
  - exact (parse_thrown_wrapped StringToNumber ObjectToNumber parseLooseJson
             (answer d) e Hp).
Qed.

Lemma unparsed_answer_has_no_effect_witness :
  _handleCodeReview decimal_StringToNumber no_ObjectToNumber
    example_parseLooseJson (example_context example_pull_request)
    (verdict_world "I cannot review this." (Resolved tt) (Resolved "url")) []
    = (Thrown (could_not_parse (Error "Unexpected token")), example_reviewed).
Proof.
  apply (unparsed_answer_has_no_effect decimal_StringToNumber
           no_ObjectToNumber example_parseLooseJson
           (example_context example_pull_request)
           (verdict_world "I cannot review this." (Resolved tt)
              (Resolved "url"))
           [] example_reviewed
           (example_completion_of "I cannot review this.")
           (could_not_parse (Error "Unexpected token"))).
  - vm_compute. reflexivity.
  - vm_compute. reflexivity.
Defined.

(** X10: when the verdict's confidence is below 0.5 and the draft
    conversion fails, [_handleCodeReview] throws the "Failed to convert pull
    request to draft mode" error wrapping the failure, and the review is
    not submitted. *)
Theorem failed_conversion_blocks_review
    (StringToNumber : string -> number) (ObjectToNumber : jsval -> number)
    (parseLooseJson : string -> outcome jsval)
    (context : Context) (w : world) (tr tr1 : list call)
    (d : CompletionsType) (v : PullReviewVerdict) (q : Q) (e : error) :
  reviewPull StringToNumber ObjectToNumber context w tr = (Returned d, tr1) ->
  parsePullReviewData StringToNumber ObjectToNumber parseLooseJson (answer d)
    = Returned v ->
  confidenceThreshold v = Fin q ->
  (q < 1 # 2)%Q ->
  convertPullRequestToDraft w
    (node_id (payload_pull_request (ctx_payload context))) = Rejected e ->
  _handleCodeReview StringToNumber ObjectToNumber parseLooseJson context w tr
    = (Thrown (failed_to_convert e), (tr1 ++ [convert_call context])%list).
Proof.
  intros Hr Hp Hc Hq Hconv.
  apply (handle_conversion_rejected StringToNumber ObjectToNumber
           parseLooseJson context w tr tr1 d Hr v e Hp); [| exact Hconv].
  rewrite Hc. apply Num_lt_Fin, Hq.
Qed.

Lemma failed_conversion_blocks_review_witness :
  _handleCodeReview decimal_StringToNumber no_ObjectToNumber
    example_parseLooseJson (example_context example_pull_request)
    (verdict_world doubtful_answer (Rejected bad_gateway) (Resolved "url")) []
    = (Thrown (failed_to_convert bad_gateway),
       (example_reviewed ++
        [graphql_convertPullRequestToDraft "PR_kwDOexample3"])%list).
Proof.
  apply (failed_conversion_blocks_review decimal_StringToNumber
           no_ObjectToNumber example_parseLooseJson
           (example_context example_pull_request)
           (verdict_world doubtful_answer (Rejected bad_gateway)
              (Resolved "url"))
           [] example_reviewed (example_completion_of doubtful_answer)
           {| confidenceThreshold := Fin (1 # 5); reviewComment := "rework" |}
           (1 # 5) bad_gateway).
  - vm_compute. reflexivity.
  - vm_compute. reflexivity.
  - reflexivity.
  - reflexivity.
  - reflexivity.
Defined.

(** X11: when the review cannot be submitted, [_handleCodeReview] throws
    the "Failed to submit code review" error wrapping the failure; a draft
    conversion made for a confidence below 0.5 has taken place before and
    stays. *)
Theorem failed_submission_is_thrown
    (StringToNumber : string -> number) (ObjectToNumber : jsval -> number)
    (parseLooseJson : string -> outcome jsval)
    (context : Context) (w : world) (tr tr1 : list call)
    (d : CompletionsType) (v : PullReviewVerdict) (e : error) :
  let p := ctx_payload context in
  reviewPull StringToNumber ObjectToNumber context w tr = (Returned d, tr1) ->
  parsePullReviewData StringToNumber ObjectToNumber parseLooseJson (answer d)
    = Returned v ->
  (Num.lt (confidenceThreshold v) (Fin (1 # 2)) = true ->
   convertPullRequestToDraft w (node_id (payload_pull_request p))
     = Resolved tt) ->
  createReview w (repository_owner_login p) (repository_name p)
    (payload_number p) (reviewComment v) (event_of v) = Rejected e ->
  _handleCodeReview StringToNumber ObjectToNumber parseLooseJson context w tr
    = (Thrown (failed_to_submit e),
       (tr1 ++ conversion_of context v ++
        [review_call context (reviewComment v) (event_of v)])%list).
Proof.
  intros p Hr Hp Hc Hs.
  rewrite (handle_submission StringToNumber ObjectToNumber parseLooseJson
             context w tr tr1 d Hr v Hp Hc).
  fold p. rewrite Hs. reflexivity.
Qed.

Lemma failed_submission_is_thrown_witness :
  _handleCodeReview decimal_StringToNumber no_ObjectToNumber
    example_parseLooseJson (example_context example_pull_request)
    (verdict_world doubtful_answer (Resolved tt) (Rejected bad_gateway)) []
    = (Thrown (failed_to_submit bad_gateway),
       (example_reviewed ++
        [graphql_convertPullRequestToDraft "PR_kwDOexample3"] ++
        [pulls_createReview "ubiquity" "test-repo" (Num.of_Z 3) "rework"
           REQUEST_CHANGES])%list).
Proof.
  apply (failed_submission_is_thrown decimal_StringToNumber
           no_ObjectToNumber example_parseLooseJson
           (example_context example_pull_request)
           (verdict_world doubtful_answer (Resolved tt)
              (Rejected bad_gateway))
           [] example_reviewed (example_completion_of doubtful_answer)
           {| confidenceThreshold := Fin (1 # 5); reviewComment := "rework" |}
           bad_gateway).
  - vm_compute. reflexivity.
  - vm_compute. reflexivity.
  - intros _. reflexivity.
  - reflexivity.
Defined.

Lemma decision_table (context : Context) (v : PullReviewVerdict) :
  (forall q, confidenceThreshold v = Fin q -> (q < 1 # 2)%Q ->
             conversion_of context v = [convert_call context] /\
             event_of v = REQUEST_CHANGES) /\
  (forall q, confidenceThreshold v = Fin q -> (1 # 2 < q)%Q ->
             conversion_of context v = [] /\ event_of v = COMMENT) /\
  (confidenceThreshold v = NaN ->
   conversion_of context v = [] /\ event_of v = REQUEST_CHANGES).
Proof.
  unfold conversion_of, event_of. split; [| split].
  - intros q -> Hq. apply Num_lt_Fin in Hq.
    unfold Num.gt. rewrite (Num_lt_asym _ _ Hq), Hq. split; reflexivity.
  - intros q -> Hq. apply Num_lt_Fin in Hq.
    unfold Num.gt. rewrite (Num_lt_asym _ _ Hq), Hq. split; reflexivity.
  - intros ->. split; reflexivity.
Qed.

(** X12: when the collaborators answer, [_handleCodeReview] returns
    [{status: 200, reason: "Success"}] after the requests that the
    verdict's confidence decides: below 0.5 a draft conversion followed by a
    "REQUEST_CHANGES" review, above 0.5 a "COMMENT" review alone, and for a
    confidence that is NaN (which the parser lets through) a
    "REQUEST_CHANGES" review alone; the review carries the verdict's
    comment. *)
Theorem verdict_decides_requests
    (StringToNumber : string -> number) (ObjectToNumber : jsval -> number)
    (parseLooseJson : string -> outcome jsval)
    (context : Context) (w : world) (tr tr1 : list call)
    (d : CompletionsType) (v : PullReviewVerdict) (url : string) :
  let p := ctx_payload context in
  reviewPull StringToNumber ObjectToNumber context w tr = (Returned d, tr1) ->
  parsePullReviewData StringToNumber ObjectToNumber parseLooseJson (answer d)
    = Returned v ->
  (Num.lt (confidenceThreshold v) (Fin (1 # 2)) = true ->
   convertPullRequestToDraft w (node_id (payload_pull_request p))
     = Resolved tt) ->
  createReview w (repository_owner_login p) (repository_name p)
    (payload_number p) (reviewComment v) (event_of v) = Resolved url ->
  _handleCodeReview StringToNumber ObjectToNumber parseLooseJson context w tr
    = (Returned {| status := 200; reason := "Success" |},
       (tr1 ++ conversion_of context v ++
        [review_call context (reviewComment v) (event_of v)])%list) /\
  (forall q, confidenceThreshold v = Fin q -> (q < 1 # 2)%Q ->
             conversion_of context v = [convert_call context] /\
             event_of v = REQUEST_CHANGES) /\
  (forall q, confidenceThreshold v = Fin q -> (1 # 2 < q)%Q ->
             conversion_of context v = [] /\ event_of v = COMMENT) /\
  (confidenceThreshold v = NaN ->
   conversion_of context v = [] /\ event_of v = REQUEST_CHANGES).
Proof.
  intros p Hr Hp Hc Hs. split; [| apply decision_table].
  rewrite (handle_submission StringToNumber ObjectToNumber parseLooseJson
             context w tr tr1 d Hr v Hp Hc).
  fold p. rewrite Hs. reflexivity.
Qed.

Lemma verdict_decides_requests_witness :
  _handleCodeReview decimal_StringToNumber no_ObjectToNumber
    example_parseLooseJson (example_context example_pull_request)
    (verdict_world doubtful_answer (Resolved tt) (Resolved "url")) []
    = (Returned {| status := 200; reason := "Success" |},
       (example_reviewed ++
        [graphql_convertPullRequestToDraft "PR_kwDOexample3"] ++
        [pulls_createReview "ubiquity" "test-repo" (Num.of_Z 3) "rework"
           REQUEST_CHANGES])%list).
Proof.
  apply (proj1 (verdict_decides_requests decimal_StringToNumber
           no_ObjectToNumber example_parseLooseJson
           (example_context example_pull_request)
           (verdict_world doubtful_answer (Resolved tt) (Resolved "url"))
           [] example_reviewed (example_completion_of doubtful_answer)
           {| confidenceThreshold := Fin (1 # 5); reviewComment := "rework" |}
           "url"
           ltac:(vm_compute; reflexivity) ltac:(vm_compute; reflexivity)
           (fun _ => eq_refl) eq_refl)).
Defined.

(** ** Every run of the precheck *)

Lemma nothing_after_review_spec (tr : list call) :
  nothing_after_review tr = true ->
  forall pre c post,
    tr = (pre ++ c :: post)%list -> is_review c = true -> post = [].
Proof.
  induction tr as [|a tr IH]; intros H pre c post E Hc.
  - destruct pre; discriminate.
  - simpl in H. apply andb_true_iff in H as [Ha Htr].
    destruct pre as [|b pre]; simpl in E; injection E as -> ->.
    + rewrite Hc in Ha. destruct post; [reflexivity | discriminate].
    + exact (IH Htr pre c post eq_refl Hc).
Qed.

Lemma below_and_above (c h : number) :
  Num.lt c h = true -> Num.gt c h = true -> False.
Proof.
  intros H1 H2. unfold Num.gt in H2. rewrite (Num_lt_asym _ _ H1) in H2.
  discriminate.
Qed.

Ltac absurd_comparison :=
  match goal with
  | H1 : Num.lt ?c ?h = true, H2 : Num.gt ?c ?h = true |- _ =>
      exfalso; exact (below_and_above c h H1 H2)
  end.

Lemma precheck_run_invariant
    (StringToNumber : string -> number) (ObjectToNumber : jsval -> number)
    (Date_getTime : string -> number)
    (parseLooseJson : string -> outcome jsval)
    (context : Context) (w : world) :
  run_invariant
    (snd (run (performPullPrecheck StringToNumber ObjectToNumber Date_getTime
                 parseLooseJson context w))).
Proof.
  unfold run_invariant. unfold_class.
  repeat (case_step; cbn [fst snd]).
  all: try absurd_comparison.
  all: unfold count; cbn; repeat split; try lia; try reflexivity;
       intros; try discriminate.
Qed.

Lemma last_Some_review (tr : list call) :
  (exists before c, tr = (before ++ [c])%list /\ is_review c = true) <->
  match last tr with Some c => is_review c | None => false end = true.
Proof.
  split.
  - intros (before & c & -> & Hc). rewrite last_snoc. exact Hc.
  - destruct (last tr) as [c|] eqn:E; [| discriminate].
    intros Hc. apply last_Some in E as [before ->]. eauto.
Qed.

(** X13: in every run of [performPullPrecheck], whatever the collaborators
    answer, at most one timeline request, at most one completion request,
    at most one draft conversion and at most one review submission are
    sent. *)
Theorem precheck_sends_each_request_once
    (StringToNumber : string -> number) (ObjectToNumber : jsval -> number)
    (Date_getTime : string -> number)
    (parseLooseJson : string -> outcome jsval)
    (context : Context) (w : world) :
  let tr :=
    snd (run (performPullPrecheck StringToNumber ObjectToNumber Date_getTime
                parseLooseJson context w)) in
  (count is_listEvents tr <= 1)%nat /\
  (count is_createCompletion tr <= 1)%nat /\
  (count is_convert tr <= 1)%nat /\
  (count is_review tr <= 1)%nat.
Proof.
  intros tr.
  destruct (precheck_run_invariant StringToNumber ObjectToNumber Date_getTime
              parseLooseJson context w) as (H1 & H2 & H3 & H4 & _).
  auto.
Qed.

(** X14: in every run of [performPullPrecheck] a review is never submitted
    with event "APPROVE" (only "COMMENT" or "REQUEST_CHANGES"), and the
    review submission, when there is one, is the last request of the
    run. *)
Theorem review_is_last_and_never_approves
    (StringToNumber : string -> number) (ObjectToNumber : jsval -> number)
    (Date_getTime : string -> number)
    (parseLooseJson : string -> outcome jsval)
    (context : Context) (w : world) :
  let tr :=
    snd (run (performPullPrecheck StringToNumber ObjectToNumber Date_getTime
                parseLooseJson context w)) in
  (forall ev, In ev (review_events tr) ->
              ev = COMMENT \/ ev = REQUEST_CHANGES) /\
  (forall before c after,
      tr = (before ++ c :: after)%list -> is_review c = true -> after = []).
Proof.
  intros tr.
  destruct (precheck_run_invariant StringToNumber ObjectToNumber Date_getTime
              parseLooseJson context w) as (_ & _ & _ & _ & Ha & Hl & _).
  split.
  - intros ev Hin. rewrite forallb_forall in Ha.
    specialize (Ha ev Hin). destruct ev; [discriminate | auto | auto].
  - apply nothing_after_review_spec, Hl.
Qed.

(** X15: in every run of [performPullPrecheck] that converts the pull
    request to draft, a review, if one is submitted, requests changes: a
    converted pull request never receives a "COMMENT" review. *)
Theorem converted_pull_is_never_commented
    (StringToNumber : string -> number) (ObjectToNumber : jsval -> number)
    (Date_getTime : string -> number)
    (parseLooseJson : string -> outcome jsval)
    (context : Context) (w : world) (c : call) :
  let tr :=
    snd (run (performPullPrecheck StringToNumber ObjectToNumber Date_getTime
                parseLooseJson context w)) in
  In c tr ->
  is_convert c = true ->
  forall ev, In ev (review_events tr) -> ev = REQUEST_CHANGES.
Proof.
  intros tr Hin Hc ev Hev.
  destruct (precheck_run_invariant StringToNumber ObjectToNumber Date_getTime
              parseLooseJson context w) as (_ & _ & _ & _ & _ & _ & Hconv).
  assert (He : existsb is_convert tr = true).
  { apply existsb_exists. exists c. auto. }
  specialize (Hconv He). rewrite forallb_forall in Hconv.
  specialize (Hconv ev Hev). destruct ev; try discriminate. reflexivity.
Qed.

Lemma converted_pull_is_never_commented_witness :
  REQUEST_CHANGES = REQUEST_CHANGES.
Proof.
  apply (converted_pull_is_never_commented decimal_StringToNumber
           no_ObjectToNumber iso8601_getTime example_parseLooseJson
           (example_context example_pull_request)
           (verdict_world doubtful_answer (Resolved tt) (Resolved "url"))
           (graphql_convertPullRequestToDraft "PR_kwDOexample3")).
  - vm_compute. tauto.
  - reflexivity.
  - vm_compute. tauto.
Defined.

(** X16: when [performPullPrecheck] returns, the status is 200 and the
    reason is one of three: the draft or the closed short-circuit, reached
    before any request, or "Success", reached after exactly one timeline
    request, one completion request and one review submission, the review
    being the last request of the run. *)
Theorem precheck_returns_after_review_or_nothing
    (StringToNumber : string -> number) (ObjectToNumber : jsval -> number)
    (Date_getTime : string -> number)
    (parseLooseJson : string -> outcome jsval)
    (context : Context) (w : world) (r : CallbackResult) (tr : list call) :
  run (performPullPrecheck StringToNumber ObjectToNumber Date_getTime
         parseLooseJson context w) = (Returned r, tr) ->
  status r = 200%Z /\
  ((reason r = "PR is in draft mode, no action required" /\ tr = []) \/
   (reason r = "PR is closed, no action required" /\ tr = []) \/
   (reason r = "Success" /\
    count is_listEvents tr = 1%nat /\
    count is_createCompletion tr = 1%nat /\
    count is_review tr = 1%nat /\
    exists before c, tr = (before ++ [c])%list /\ is_review c = true)).
Proof.
  unfold_class.
  repeat (case_step; cbn beta iota delta [fst snd negb]).
  all: intros [= <- <-]; (split; [reflexivity |]).
  all: first
         [ left; split; reflexivity
         | right; left; split; reflexivity
         | right; right; repeat (split; [reflexivity |]);
           apply last_Some_review; reflexivity ].
Qed.

Lemma precheck_returns_after_review_or_nothing_witness :
  returned_run {| status := 200; reason := "Success" |}
    (example_trace_before_decision ++
     [pulls_createReview "ubiquity" "test-repo" (Num.of_Z 3) "passed"
        COMMENT])%list.
Proof.
  apply (precheck_returns_after_review_or_nothing decimal_StringToNumber
           no_ObjectToNumber iso8601_getTime example_parseLooseJson
           (example_context example_pull_request)
           (example_world [] (Resolved [example_edge 1]) [] test_answer)).
  vm_compute. reflexivity.
Defined.

Lemma review_is_last_and_never_approves_witness :
  COMMENT = COMMENT \/ COMMENT = REQUEST_CHANGES.
Proof.
  apply (proj1 (review_is_last_and_never_approves decimal_StringToNumber
           no_ObjectToNumber iso8601_getTime example_parseLooseJson
           (example_context example_pull_request)
           (example_world [] (Resolved [example_edge 1]) [] test_answer))).
  vm_compute. tauto.
Defined.

(** ** Throttle: edge cases *)

(** X17: when the date of the last bot review is not a valid date (its time
    value is NaN), [canPerformReview] permits the review: the comparison of
    NaN with the 24-hour threshold is false. *)
Theorem undated_bot_review_does_not_throttle
    (Date_getTime : string -> number) (context : Context) (w : world)
    (tr : list call) (before after : list timeline_event)
    (ev : timeline_event) :
  listEvents_response context w = Resolved (before ++ ev :: after)%list ->
  BotReview ev ->
  Forall (fun e => ~ BotReview e) after ->
  Date_getTime (created_at ev) = NaN ->
  canPerformReview Date_getTime context w tr =
  (Returned true, (tr ++ [listEvents_call context])%list).
Proof.
  intros Hfetched Hev Hafter Hdate.
  rewrite (canPerformReview_last_bot_review Date_getTime context w _ Hfetched
             tr before ev after eq_refl Hev Hafter), Hdate.
  reflexivity.
Qed.

Lemma undated_bot_review_does_not_throttle_witness :
  canPerformReview iso8601_getTime (example_context example_pull_request)
    (example_world [bot_review "2024-01-01T23:00:00Z"; undated_bot_review]
       (Resolved []) [] "") [] =
  (Returned true, [issues_listEvents "ubiquity" "test-repo" (Num.of_Z 3)]).
Proof.
  apply (undated_bot_review_does_not_throttle iso8601_getTime
           (example_context example_pull_request)
           (example_world
              [bot_review "2024-01-01T23:00:00Z"; undated_bot_review]
              (Resolved []) [] "")
           [] [bot_review "2024-01-01T23:00:00Z"] [] undated_bot_review).
  - reflexivity.
  - split; reflexivity.
  - constructor.
  - reflexivity.
Defined.

(** X18: when the timeline cannot be fetched, [canPerformReview] throws the
    failure of [listEvents] as it is, without wrapping it, and
    [performPullPrecheck] on a pull request that is neither a draft nor
    closed throws it too, the timeline request being the only request
    sent. *)
Theorem timeline_failure_is_thrown
    (StringToNumber : string -> number) (ObjectToNumber : jsval -> number)
    (Date_getTime : string -> number)
    (parseLooseJson : string -> outcome jsval)
    (context : Context) (w : world) (tr : list call) (e : error) :
  let pr := payload_pull_request (ctx_payload context) in
  listEvents_response context w = Rejected e ->
  canPerformReview Date_getTime context w tr =
    (Thrown e, (tr ++ [listEvents_call context])%list) /\
  (draft pr = false -> state pr <> "closed" ->
   performPullPrecheck StringToNumber ObjectToNumber Date_getTime
     parseLooseJson context w tr =
   (Thrown e, (tr ++ [listEvents_call context])%list)).
Proof.
  intros pr Hl.
  assert (Hc : canPerformReview Date_getTime context w tr =
               (Thrown e, (tr ++ [listEvents_call context])%list)).
  { unfold canPerformReview, bind. unfold listEvents_response in Hl.
    rewrite (request_rejected _ _ e tr Hl). reflexivity. }
  split; [exact Hc |].
  intros Hd Hs. rewrite precheck_open by assumption. rewrite Hc. reflexivity.
Qed.

Lemma timeline_failure_is_thrown_witness :
  example_precheck example_pull_request
    (world_of (Rejected bad_gateway) (Resolved [example_edge 1])
       (Resolved (Some example_issue)) (Resolved [])
       (Resolved empty_dependencies) (Resolved tt) test_answer
       (Resolved "url")) =
  (Thrown bad_gateway,
   [issues_listEvents "ubiquity" "test-repo" (Num.of_Z 3)]).
Proof.
  apply (proj2 (timeline_failure_is_thrown decimal_StringToNumber
           no_ObjectToNumber iso8601_getTime example_parseLooseJson
           (example_context example_pull_request)
           (world_of (Rejected bad_gateway) (Resolved [example_edge 1])
              (Resolved (Some example_issue)) (Resolved [])
              (Resolved empty_dependencies) (Resolved tt) test_answer
              (Resolved "url"))
           [] bad_gateway eq_refl)).
  - reflexivity.
  - discriminate.
Defined.

(** ** Verdict parser: what the thrown error reports *)

Section ParserCauses.

Variable StringToNumber : string -> number.
Variable ObjectToNumber : jsval -> number.
Variable parseLooseJson : string -> outcome jsval.

#[local] Abbreviation parse :=
  (parsePullReviewData StringToNumber ObjectToNumber parseLooseJson).

Lemma numeric_check (t : jsval) :
  negb (String.eqb (typeof t) "number") &&
  (negb (String.eqb (typeof t) "string") ||
   Num.isNaN (Number StringToNumber ObjectToNumber t)) = false <->
  numeric StringToNumber t.
Proof.
  destruct t as [| |b|n|s|l|o]; simpl; try (split; [discriminate | tauto]).
  - split; auto.
  - reflexivity.
Qed.

Lemma parse_cause_parser input e :
  parseLooseJson input = Thrown e -> parse input = Thrown (could_not_parse e).
Proof.
  intros H. unfold parsePullReviewData, parsePullReviewData_body.
  rewrite H. reflexivity.
Qed.

Lemma parse_cause_not_destructurable input v :
  parseLooseJson input = Returned v ->
  v = JNull \/ v = JUndefined ->
  exists msg, parse input = Thrown (could_not_parse (TypeError msg)).
Proof.
  intros H Hv. unfold parsePullReviewData, parsePullReviewData_body.
  rewrite H. destruct Hv as [-> | ->]; eexists; reflexivity.
Qed.

Lemma parse_cause_threshold input v :
  parseLooseJson input = Returned v ->
  destructurable v ->
  ~ numeric StringToNumber (property v "confidenceThreshold") ->
  parse input = Thrown (could_not_parse invalid_confidenceThreshold).
Proof.
  intros H Hd Hn. unfold parsePullReviewData, parsePullReviewData_body.
  rewrite H, !get_property_destructurable by exact Hd.
  destruct (negb _ && _) eqn:E; [reflexivity |].
  apply numeric_check in E. contradiction.
Qed.

Lemma parse_cause_comment input v :
  parseLooseJson input = Returned v ->
  numeric StringToNumber (property v "confidenceThreshold") ->
  (forall s, property v "reviewComment" <> JStr s) ->
  parse input = Thrown (could_not_parse invalid_reviewComment).
Proof.
  intros H Hn Hc. unfold parsePullReviewData, parsePullReviewData_body.
  rewrite H.
  assert (Hd : destructurable v).
  { split; intros ->; simpl in Hn; exact Hn. }
  rewrite !get_property_destructurable by exact Hd.
  apply numeric_check in Hn. rewrite Hn.
  destruct (property v "reviewComment") as [| |b|n|s|l|o]; try reflexivity.
  exfalso. exact (Hc s eq_refl).
Qed.

End ParserCauses.

(** X19: the error thrown by [parsePullReviewData] wraps the cause of the
    failure, which tells the failures apart: the error of the loose parser
    itself; a TypeError when the parsed value is [null] or [undefined]; the
    "Invalid or missing confidenceThreshold" error when the threshold is
    not numeric, whatever the comment is (the threshold is checked first);
    the "Invalid or missing reviewComment" error when the threshold is
    numeric and the comment is not a string. *)
Theorem parse_error_reports_cause
    (StringToNumber : string -> number) (ObjectToNumber : jsval -> number)
    (parseLooseJson : string -> outcome jsval) (input : string) :
  let parse :=
    parsePullReviewData StringToNumber ObjectToNumber parseLooseJson in
  (forall e, parseLooseJson input = Thrown e ->
             parse input = Thrown (could_not_parse e)) /\
  (forall v, parseLooseJson input = Returned v ->
             v = JNull \/ v = JUndefined ->
             exists msg,
               parse input = Thrown (could_not_parse (TypeError msg))) /\
  (forall v, parseLooseJson input = Returned v ->
             destructurable v ->
             ~ numeric StringToNumber (property v "confidenceThreshold") ->
             parse input =
             Thrown (could_not_parse invalid_confidenceThreshold)) /\
  (forall v, parseLooseJson input = Returned v ->
             numeric StringToNumber (property v "confidenceThreshold") ->
             (forall s, property v "reviewComment" <> JStr s) ->
             parse input = Thrown (could_not_parse invalid_reviewComment)).
Proof.
  intros parse. split; [| split; [| split]].
  - intros e. apply parse_cause_parser.
  - intros v. apply parse_cause_not_destructurable.
  - intros v. apply parse_cause_threshold.
  - intros v. apply parse_cause_comment.
Qed.

Lemma parse_error_reports_cause_witness :
  let parse :=
    parsePullReviewData decimal_StringToNumber no_ObjectToNumber
      faulty_parseLooseJson in
  parse "I cannot review this." =
    Thrown (could_not_parse (Error "Unexpected token")) /\
  (exists msg, parse "null" = Thrown (could_not_parse (TypeError msg))) /\
  parse "{reviewComment: 'fine'}" =
    Thrown (could_not_parse invalid_confidenceThreshold) /\
  parse "{confidenceThreshold: true, reviewComment: 7}" =
    Thrown (could_not_parse invalid_confidenceThreshold) /\
  parse "{confidenceThreshold: 1}" =
    Thrown (could_not_parse invalid_reviewComment).
Proof.
  intros parse. subst parse.
  split; [| split; [| split; [| split]]].
  - apply (proj1 (parse_error_reports_cause decimal_StringToNumber
             no_ObjectToNumber faulty_parseLooseJson
             "I cannot review this.")).
    reflexivity.
  - apply (proj1 (proj2 (parse_error_reports_cause decimal_StringToNumber
             no_ObjectToNumber faulty_parseLooseJson "null")) JNull);
      [reflexivity | left; reflexivity].
  - apply (proj1 (proj2 (proj2 (parse_error_reports_cause
             decimal_StringToNumber no_ObjectToNumber faulty_parseLooseJson
             "{reviewComment: 'fine'}")))
             (JObj (<["reviewComment" := JStr "fine"]> ∅))).
    + reflexivity.
    + split; discriminate.
    + vm_compute. tauto.
  - apply (proj1 (proj2 (proj2 (parse_error_reports_cause
             decimal_StringToNumber no_ObjectToNumber faulty_parseLooseJson
             "{confidenceThreshold: true, reviewComment: 7}")))
             (JObj (<["confidenceThreshold" := JBool true]>
                      (<["reviewComment" := JNum (Num.of_Z 7)]> ∅)))).
    + reflexivity.
    + split; discriminate.
    + vm_compute. tauto.
  - apply (proj2 (proj2 (proj2 (parse_error_reports_cause
             decimal_StringToNumber no_ObjectToNumber faulty_parseLooseJson
             "{confidenceThreshold: 1}")))
             (JObj (<["confidenceThreshold" := JNum (Num.of_Z 1)]> ∅))).
    + reflexivity.
    + vm_compute. exact I.
    + intros s. vm_compute. discriminate.
Defined.

(** ** The matches of the body *)

Lemma all_digits_snoc acc c :
  all_digits acc = true -> is_digit c = true ->
  all_digits (acc +:+ String c EmptyString) = true.
Proof.
  intros Ha Hc. induction acc as [|a acc IH].
  - rewrite append_nil_l. simpl. rewrite Hc. reflexivity.
  - simpl in Ha. apply andb_true_iff in Ha as [Ha1 Ha2].
    rewrite append_cons. simpl. rewrite Ha1, (IH Ha2). reflexivity.
Qed.

Lemma flush_hash_digits cur m :
  (forall acc, cur = Some acc -> all_digits acc = true) ->
  In m (flush cur) -> hash_digits m.
Proof.
  intros Hcur Hin. destruct cur as [[|d ds]|]; simpl in Hin;
    try contradiction.
  destruct Hin as [<- | []]. exists (String d ds).
  split; [reflexivity |]. split; [discriminate |]. apply Hcur. reflexivity.
Qed.

Lemma scan_hash_digits_matches b : forall cur m,
  (forall acc, cur = Some acc -> all_digits acc = true) ->
  In m (scan_hash_digits cur b) -> hash_digits m.
Proof.
  induction b as [|c b IH]; intros cur m Hcur Hin.
  - exact (flush_hash_digits cur m Hcur Hin).
  - destruct (is_digit c) eqn:Ed.
    + rewrite scan_step_digit in Hin by exact Ed.
      destruct cur as [acc|].
      * apply (IH _ m) in Hin; [exact Hin |].
        intros acc' [= <-]. apply all_digits_snoc; auto.
      * apply (IH None m); [discriminate | exact Hin].
    + rewrite scan_step_other in Hin by exact Ed.
      apply in_app_or in Hin as [Hin | Hin].
      * exact (flush_hash_digits cur m Hcur Hin).
      * apply (IH _ m) in Hin; [exact Hin |].
        destruct (is_hash c); [intros acc [= <-]; reflexivity | discriminate].
Qed.

(** X20: every match of [/#(\d+)/g] in a body is a hash sign followed by a
    non-empty run of digits, and removing its hash sign leaves that run:
    what the body fallback hands to [Number] is always a non-empty string
    of digits.  The array of matches is never empty. *)
Theorem body_matches_are_hash_digits (b : string) (ms : list string) :
  match_hash_digits b = Some ms ->
  ms <> [] /\
  forall m, In m ms ->
    exists ds,
      m = String "#"%char ds /\
      replace_first "#"%char m = ds /\
      ds <> EmptyString /\
      all_digits ds = true.
Proof.
  unfold match_hash_digits.
  destruct (scan_hash_digits None b) as [|m0 rest] eqn:E; [discriminate |].
  intros [= <-]. split; [discriminate |].
  intros m Hin. rewrite <- E in Hin.
  apply scan_hash_digits_matches in Hin; [| discriminate].
  destruct Hin as (ds & -> & Hne & Hd).
  exists ds. repeat split; assumption.
Qed.

Lemma body_matches_are_hash_digits_witness :
  ["#12"; "#7"; "#345"] <> [] /\
  forall m, In m ["#12"; "#7"; "#345"] ->
    exists ds,
      m = String "#"%char ds /\
      replace_first "#"%char m = ds /\
      ds <> EmptyString /\
      all_digits ds = true.
Proof.
  apply (body_matches_are_hash_digits
           "Resolves #12, see also ##7 and #x #345abc").
  reflexivity.
Defined.

Lemma scan_pending_nonempty b : forall acc,
  acc <> EmptyString -> scan_hash_digits (Some acc) b <> [].
Proof.
  induction b as [|c b IH]; intros acc Hne.
  - destruct acc; [congruence | discriminate].
  - destruct (is_digit c) eqn:Ed.
    + rewrite scan_step_digit by exact Ed. apply IH.
      destruct acc; discriminate.
    + rewrite scan_step_other by exact Ed.
      destruct acc; [congruence | discriminate].
Qed.

Lemma no_token_cons c s :
  no_token s ->
  (is_hash c = true -> starts_with_digit s = false) ->
  no_token (String c s).
Proof.
  intros Hs Hc s1 d s2 E. destruct s1 as [|a s1].
  - rewrite append_nil_l in E. injection E as -> ->.
    exact (Hc eq_refl).
  - rewrite append_cons in E. injection E as _ E. exact (Hs s1 d s2 E).
Qed.

Lemma no_token_empty : no_token EmptyString.
Proof. intros s1 d s2 E. destruct s1; discriminate. Qed.

Lemma no_token_start s :
  no_token (String "#"%char s) -> starts_with_digit s = false.
Proof.
  intros H. destruct s as [|d s]; [reflexivity |].
  exact (H EmptyString d s eq_refl).
Qed.

Lemma scan_empty_no_token b : forall cur,
  cur = None \/ cur = Some EmptyString ->
  scan_hash_digits cur b = [] ->
  no_token (hash_prefix cur +:+ b).
Proof.
  induction b as [|c b IH]; intros cur Hcur Hscan.
  - destruct Hcur as [-> | ->]; simpl.
    + apply no_token_empty.
    + apply no_token_cons; [apply no_token_empty | reflexivity].
  - destruct (is_digit c) eqn:Ed.
    + rewrite scan_step_digit in Hscan by exact Ed.
      destruct Hcur as [-> | ->].
      * simpl. rewrite append_nil_l. apply no_token_cons.
        -- exact (IH None (or_introl eq_refl) Hscan).
        -- intros Hh. apply Ascii.eqb_eq in Hh. subst c. discriminate.
      * exfalso. revert Hscan. apply scan_pending_nonempty. discriminate.
    + rewrite scan_step_other, (flush_fresh cur Hcur) in Hscan by exact Ed.
      simpl in Hscan.
      pose proof (IH _ (next_state_fresh c) Hscan) as Hb.
      assert (Hcb : no_token (String c b)).
      { destruct (is_hash c) eqn:Eh.
        - apply Ascii.eqb_eq in Eh. subst c. exact Hb.
        - simpl in Hb. rewrite append_nil_l in Hb.
          apply no_token_cons; [exact Hb | congruence]. }
      destruct Hcur as [-> | ->]; simpl.
      * rewrite append_nil_l. exact Hcb.
      * change (no_token (String "#"%char (String c b))).
        apply no_token_cons; [exact Hcb |]. intros _. exact Ed.
Qed.

(** X21: the body has no match of [/#(\d+)/g], so that the task linker
    converts the pull request to draft and asks for a link, exactly when no
    hash sign of the body is followed by a digit. *)
Theorem body_without_match (b : string) :
  match_hash_digits b = None <-> no_token b.
Proof.
  split.
  - unfold match_hash_digits.
    destruct (scan_hash_digits None b) as [|m ms] eqn:E; [| discriminate].
    intros _.
    exact (scan_empty_no_token b None (or_introl eq_refl) E).
  - apply match_no_token_none.
Qed.

(** ** The closing-references query, whatever it answers *)

(** X22: with a pull request number other than 0 and NaN,
    [checkIfPrClosesIssues] never throws: it sends the query and returns a
    result in which [closesIssues] is true exactly when [issues] is not
    empty; when the query answers, [issues] are its edges in the same order,
    with their numbers, and when it fails [issues] is empty. *)
Theorem checkIfPrClosesIssues_result
    (w : world) (owner repo : string) (pr_number : number)
    (tr : list call) :
  Num.falsy pr_number = false ->
  exists r,
    checkIfPrClosesIssues w owner repo pr_number tr =
    (Returned r,
     (tr ++ [graphql_closedByPullRequestsReferences owner repo pr_number])%list)
    /\
    (closesIssues r = true <-> issues r <> []) /\
    (forall edges,
        closedByPullRequestsReferences w owner repo pr_number
          = Resolved edges ->
        issues r = List.map to_ClosingIssueRef edges /\
        List.map ref_number (issues r) = List.map node_number edges) /\
    (forall e,
        closedByPullRequestsReferences w owner repo pr_number = Rejected e ->
        issues r = []).
Proof.
  intros Hpr.
  destruct (closedByPullRequestsReferences w owner repo pr_number)
    as [edges|e] eqn:Hq.
  - eexists. split.
    { exact (checkIfPrClosesIssues_resolved w owner repo pr_number edges tr
               Hpr Hq). }
    cbn [closesIssues issues]. split; [| split].
    + destruct edges; simpl; split; congruence.
    + intros edges' [= <-]. split; [reflexivity |].
      rewrite List.map_map. reflexivity.
    + discriminate.
  - exists no_linked_issues. split.
    { unfold checkIfPrClosesIssues, try_catch, bind. rewrite Hpr.
      rewrite (request_rejected _ _ e tr Hq). reflexivity. }
    simpl. split; [split; congruence |]. split; [discriminate | reflexivity].
Qed.

Lemma checkIfPrClosesIssues_result_witness :
  exists r,
    checkIfPrClosesIssues
      (example_world [] (Resolved [example_edge 7; example_edge 8]) [] "")
      "ubiquity" "test-repo" (Num.of_Z 3) [] =
    (Returned r, ([] ++ [example_closing_call])%list) /\
    (closesIssues r = true <-> issues r <> []) /\
    (forall edges,
        Resolved [example_edge 7; example_edge 8] = Resolved edges ->
        issues r = List.map to_ClosingIssueRef edges /\
        List.map ref_number (issues r) = List.map node_number edges) /\
    (forall e,
        Resolved [example_edge 7; example_edge 8] = Rejected e ->
        issues r = []).
Proof.
  apply (checkIfPrClosesIssues_result
           (example_world [] (Resolved [example_edge 7; example_edge 8]) [] "")
           "ubiquity" "test-repo" (Num.of_Z 3) []).
  reflexivity.
Defined.
